(** * Model promotion: [src/models/promote_model.py]

    A shallow embedding of the promotion script of the batch MLOps
    project: the two test classes [SingleModelTest] and
    [ChallengerModelTest], the helper [log_promotion_status] and the
    entry point [main], followed by the properties that the design
    document states about them.

    Conventions of the embedding.
    - Python floats are idealised as rationals [Q]; only the order
      comparisons [<] and [>] of the source are used on them.
    - A Python exception is its class name and its message; a computation
      that may raise returns a [result].
    - [main] runs against an explicit [State]: the artifact store (data
      frames and registered model versions) and the chronological trace of
      the calls made to the logger and to wandb.
    - Code of the repository outside [src/models/promote_model.py]
      ([RegressionEvaluation], [get_model], [read_dataframe_artifact],
      [promote_to_prod]) is either a parameter of the development or
      modelled from the design document, as said at each definition. *)

From Stdlib Require Import QArith ZArith List String Bool Lia.
From Stdlib Require Import Qabs Qminmax DecimalString.
Import ListNotations.

Local Open Scope string_scope.
Local Open Scope list_scope.
Local Open Scope Q_scope.

(** ** Exceptions and results *)

(** A raised Python exception: the name of its class and its message. *)
Record exn : Type := Exception { exn_class : string; exn_msg : string }.

Definition ValueError (msg : string) : exn := Exception "ValueError" msg.
Definition KeyError (key : string) : exn := Exception "KeyError" key.
Definition ArtifactDoesNoteExistError (msg : string) : exn :=
  Exception "ArtifactDoesNoteExistError" msg.

(** [isinstance(e, cls)], with the class hierarchy flattened. *)
Definition isinstance (e : exn) (cls : string) : bool :=
  String.eqb (exn_class e) cls.

Inductive result (A : Type) : Type :=
| Ok (a : A)
| Raise (e : exn).
Arguments Ok {A} a.
Arguments Raise {A} e.

Definition rbind {A B} (r : result A) (k : A -> result B) : result B :=
  match r with
  | Ok a => k a
  | Raise e => Raise e
  end.

Declare Scope result_scope.
Delimit Scope result_scope with result.
Notation "x <~ r ;; k" := (rbind r (fun x => k))
  (at level 61, r at next level, right associativity) : result_scope.
Local Open Scope result_scope.

(** ** Numbers *)

(** Python's [x < y] on numbers, as a boolean. *)
Definition Qltb (x y : Q) : bool :=
  (Qnum x * QDen y <? Qnum y * QDen x)%Z.

(** [ndarray.min()]: numpy raises [ValueError] on an array of size zero. *)
Definition ndarray_min (a : list Q) : result Q :=
  match a with
  | [] => Raise (ValueError
            "zero-size array to reduction operation minimum which has no identity")
  | x :: xs => Ok (fold_left Qmin xs x)
  end.

Definition string_of_Z (z : Z) : string :=
  NilZero.string_of_int (Z.to_int z).

(** A rendering of exact rationals, used where an example needs a concrete
    [str] for numbers: the numerator, and the denominator when it is not
    one. *)
Definition str_exact (q : Q) : string :=
  let r := Qred q in
  match Qden r with
  | xH => string_of_Z (Qnum r)
  | d => (string_of_Z (Qnum r) ++ "/" ++ string_of_Z (Zpos d))%string
  end.

(** ** Data frames and predictors *)

(** A row gives a number for every column name; a frame is the list of
    its column names and its rows. *)
Definition Row : Type := string -> Q.

Record DataFrame : Type := {
  df_columns : list string;
  df_rows : list Row
}.

(** [df[col]]: the column as a sequence, [KeyError] on an unknown name. *)
Definition df_getitem (df : DataFrame) (col : string) : result (list Q) :=
  if in_dec string_dec col (df_columns df)
  then Ok (map (fun r => r col) (df_rows df))
  else Raise (KeyError col).

(** A fitted pipeline: [predict] returns one prediction for each row. *)
Definition Model : Type := Row -> Q.

Definition predict (model : Model) (X : DataFrame) : list Q :=
  map model (df_rows X).

(** ** Dictionaries with string keys *)

Definition dict (V : Type) : Type := list (string * V).

Fixpoint dict_getitem {V} (d : dict V) (key : string) : result V :=
  match d with
  | [] => Raise (KeyError key)
  | (k, v) :: d' => if String.eqb k key then Ok v else dict_getitem d' key
  end.

(** ** Evaluation *)

Fixpoint sum_abs_err (y_true y_pred : list Q) : Q :=
  match y_true, y_pred with
  | t :: ts, p :: ps => Qabs (t - p) + sum_abs_err ts ps
  | _, _ => 0
  end.

(** Modelled from the spec: [src/models/evaluation.py] is missing; section
    4.1 of the design document describes [evaluate(y_true, y_pred)] as
    failing with [ShapeMismatchError] when the two sequences differ in
    length and otherwise computing at least the mean absolute error, read
    by the gates under the key ["mae"].  The design document does not say
    what the evaluation does with two empty sequences; the quotient below
    is then Rocq's [0 / 0 = 0], a value that no property here relies
    on. *)
Definition spec_get_metrics (y_true y_pred : list Q) : result (dict Q) :=
  if Nat.eqb (List.length y_true) (List.length y_pred)
  then Ok [("mae", sum_abs_err y_true y_pred / inject_Z (Z.of_nat (List.length y_true)))]
  else Raise (Exception "ShapeMismatchError" "").

(** The two things the script takes from its environment: Python's
    rendering of a number inside an f-string, and
    [RegressionEvaluation(y_true, y_pred).get_metrics()] of
    [src/models/evaluation.py]. *)
Record Env : Type := {
  str : Q -> string;
  get_metrics : list Q -> list Q -> result (dict Q)
}.

(** The environment of the examples: exact rendering and the evaluation
    modelled from the design document. *)
Definition spec_env : Env :=
  {| str := str_exact; get_metrics := spec_get_metrics |}.

(** An evaluation that refuses empty input with a [ValueError], as the
    metrics of scikit-learn do, and agrees with [spec_get_metrics]
    otherwise; with [spec_env] it covers both things an evaluation can do
    on no data, return or raise. *)
Definition strict_get_metrics (y_true y_pred : list Q) : result (dict Q) :=
  match y_true with
  | [] => Raise (ValueError
            "Found array with 0 sample(s) while a minimum of 1 is required.")
  | _ :: _ => spec_get_metrics y_true y_pred
  end.

Definition strict_env : Env :=
  {| str := str_exact; get_metrics := strict_get_metrics |}.

(** The truth value of a bound method object.  A method that is named but
    not called is an object without [__bool__] or [__len__], hence true
    whatever calling it would return. *)
Definition bound_method_truth {A} (method : unit -> A) : bool := true.

(** ** [class SingleModelTest] *)

Module SingleModelTest.

Record t : Type := {
  model : Model;
  test_data : DataFrame;
  target_col : string;
  max_mae : Q;
  predictions : list Q;
  model_mae : Q
}.

Section Methods.
Variable env : Env.

Definition _calc_model_mae (predictions : list Q) (test_data : DataFrame)
    (target_col : string) : result Q :=
  y_true <~ df_getitem test_data target_col ;;
  metrics <~ get_metrics env y_true predictions ;;
  dict_getitem metrics "mae".

Definition __init__ (model : Model) (test_data : DataFrame)
    (target_col : string) (max_mae : Q) : result t :=
  let predictions := predict model test_data in
  model_mae <~ _calc_model_mae predictions test_data target_col ;;
  Ok {| model := model; test_data := test_data; target_col := target_col;
        max_mae := max_mae; predictions := predictions;
        model_mae := model_mae |}.

Definition _model_has_ok_mae (self : t) : bool :=
  Qltb (model_mae self) (max_mae self).

Definition _predictions_all_positive (self : t) : result bool :=
  m <~ ndarray_min (predictions self) ;;
  Ok (Qltb 0 m).

(** [all([a(), b()])]: both calls are made to build the list. *)
Definition model_passes_tests (self : t) : result bool :=
  let a := _model_has_ok_mae self in
  b <~ _predictions_all_positive self ;;
  Ok (a && b).

(** Line 76 tests [self._model_has_ok_mae], the method itself, where line
    85 calls [self._predictions_all_positive()]. *)
Definition message (self : t) : result string :=
  let mae_message :=
    if bound_method_truth (fun _ : unit => _model_has_ok_mae self)
    then ("The model has MAE of " ++ str env (model_mae self)
          ++ ", which is under the max threshold of "
          ++ str env (max_mae self))%string
    else ("The model has MAE of " ++ str env (model_mae self)
          ++ ", which is not below the max threshold of "
          ++ str env (max_mae self))%string
  in
  positive <~ _predictions_all_positive self ;;
  let edge_case_message :=
    if positive then "The model passes all edge cases"
    else "The model does not pass all edge cases" in
  Ok (mae_message ++ ". " ++ edge_case_message ++ ".")%string.

End Methods.
End SingleModelTest.

(** ** [class ChallengerModelTest] *)

Module ChallengerModelTest.

Record t : Type := {
  model_challenger : Model;
  model_current : Model;
  test_data : DataFrame;
  target_col : string;
  model_challenger_mae : Q;
  model_current_mae : Q
}.

Section Methods.
Variable env : Env.

Definition _calc_model_mae (model : Model) (test_data : DataFrame)
    (target_col : string) : result Q :=
  let predictions := predict model test_data in
  y_true <~ df_getitem test_data target_col ;;
  metrics <~ get_metrics env y_true predictions ;;
  dict_getitem metrics "mae".

Definition __init__ (model_challenger model_current : Model)
    (test_data : DataFrame) (target_col : string) : result t :=
  model_challenger_mae <~ _calc_model_mae model_challenger test_data target_col ;;
  model_current_mae <~ _calc_model_mae model_current test_data target_col ;;
  Ok {| model_challenger := model_challenger; model_current := model_current;
        test_data := test_data; target_col := target_col;
        model_challenger_mae := model_challenger_mae;
        model_current_mae := model_current_mae |}.

Definition challenger_model_is_better (self : t) : bool :=
  Qltb (model_challenger_mae self) (model_current_mae self).

Definition message (self : t) : string :=
  let mae_message :=
    if challenger_model_is_better self
    then ("Challenger model has MAE of " ++ str env (model_challenger_mae self)
          ++ ", which is better than the current models performance of "
          ++ str env (model_current_mae self))%string
    else ("Challenger model has MAE of " ++ str env (model_challenger_mae self)
          ++ ", which is worse than the current models performance of "
          ++ str env (model_current_mae self))%string
  in
  (mae_message ++ ".")%string.

End Methods.
End ChallengerModelTest.

(** ** The world of a run *)

Inductive AlertLevel : Type := INFO | WARN.

(** The calls a run makes to the logger and to wandb, in order. *)
Inductive event : Type :=
| WandbInit (project job_type group : string)
| LoggerInfo (msg : string)
| LoggerWarning (msg : string)
| UseArtifact (artifact_name : string) (artifact_aliases : list string)
| WandbAlert (title text : string) (level : AlertLevel).

(** A registered version of a model: its collection name, its version
    identifier, its aliases, and the pipeline it stores. *)
Record ModelVersion : Type := {
  mv_name : string;
  mv_version : string;
  mv_aliases : list string;
  mv_model : Model
}.

Record State : Type := {
  st_frames : list (string * DataFrame);
  st_registry : list ModelVersion;
  st_trace : list event
}.

Record Artifact : Type := {
  name : string;
  aliases : list string
}.

Record ModelMetaData : Type := { version : string }.

(** What [get_model] returns, as [main] uses it. *)
Record LoadedModel : Type := {
  model : Model;
  wandb_artifact : Artifact;
  model_meta_data : ModelMetaData
}.

Record Config : Type := {
  project_name : string;
  experiment_name : string;
  test_data_name : string;
  model_name : string;
  target_column : string;
  max_mae_to_promote : Q
}.

(** ** State and exceptions *)

Definition M (A : Type) : Type := State -> result A * State.

Definition ret {A} (a : A) : M A := fun s => (Ok a, s).

Definition bind {A B} (m : M A) (k : A -> M B) : M B :=
  fun s =>
    match m s with
    | (Ok a, s') => k a s'
    | (Raise e, s') => (Raise e, s')
    end.

Definition raise {A} (e : exn) : M A := fun s => (Raise e, s).

Definition lift {A} (r : result A) : M A := fun s => (r, s).

(** [try: body / except cls: handler]; what the body did to the state
    before raising stays done. *)
Definition try_except {A} (body : M A) (cls : string) (handler : M A) : M A :=
  fun s =>
    match body s with
    | (Ok a, s') => (Ok a, s')
    | (Raise e, s') => if isinstance e cls then handler s' else (Raise e, s')
    end.

Definition emit (ev : event) : M unit :=
  fun s => (Ok tt, {| st_frames := st_frames s; st_registry := st_registry s;
                      st_trace := st_trace s ++ [ev] |}).

Declare Scope M_scope.
Delimit Scope M_scope with M.
Notation "x <- m ;; k" := (bind m (fun x => k))
  (at level 61, m at next level, right associativity) : M_scope.
Notation "m ;; k" := (bind m (fun _ => k))
  (at level 61, right associativity) : M_scope.
Local Open Scope M_scope.

Definition logger_info (msg : string) : M unit := emit (LoggerInfo msg).
Definition logger_warning (msg : string) : M unit := emit (LoggerWarning msg).
Definition wandb_init (project job_type group : string) : M unit :=
  emit (WandbInit project job_type group).
Definition wandb_alert (title text : string) (level : AlertLevel) : M unit :=
  emit (WandbAlert title text level).
Definition run_use_artifact (a : Artifact) : M unit :=
  emit (UseArtifact (name a) (aliases a)).

(** ** The artifact store *)

Fixpoint assoc {V} (l : list (string * V)) (key : string) : option V :=
  match l with
  | [] => None
  | (k, v) :: l' => if String.eqb k key then Some v else assoc l' key
  end.

Definition str_in (x : string) (l : list string) : bool :=
  existsb (String.eqb x) l.

(** Modelled from the spec: [src/utils/artifacts.py] is missing; section 6
    lists [load_dataframe(name, version) -> table], and section 7 makes the
    absence of the test data an error that aborts the run.  The helper is
    also handed the run; whatever it records on it, such as marking the
    data as used, is left out of the trace, whose [UseArtifact] events are
    the calls of [run.use_artifact] that [main] makes itself. *)
Definition read_dataframe_artifact (name version : string) : M DataFrame :=
  fun s =>
    match assoc (st_frames s) name with
    | Some df => (Ok df, s)
    | None => (Raise (ArtifactDoesNoteExistError name), s)
    end.

Definition matches (name version : string) (mv : ModelVersion) : bool :=
  String.eqb (mv_name mv) name
  && (String.eqb (mv_version mv) version || str_in version (mv_aliases mv)).

Definition load (mv : ModelVersion) : LoadedModel :=
  {| model := mv_model mv;
     wandb_artifact := {| name := mv_name mv; aliases := mv_aliases mv |};
     model_meta_data := {| version := mv_version mv |} |}.

(** Modelled from the spec: [src/utils/models.py] is missing; section 6
    lists [load_model(name, version) -> ModelHandle], a handle carrying the
    predictor, the version identifier and the alias tags; the requested
    version is a version identifier or an alias, and
    [ArtifactDoesNoteExistError], which [main] imports, is raised when the
    store has no such version. *)
Definition get_model (project_name model_name model_version : string)
    : M LoadedModel :=
  fun s =>
    match find (matches model_name model_version) (st_registry s) with
    | Some mv => (Ok (load mv), s)
    | None => (Raise (ArtifactDoesNoteExistError model_name), s)
    end.

Definition retag (target : LoadedModel) (mv : ModelVersion) : ModelVersion :=
  if String.eqb (mv_name mv) (name (wandb_artifact target)) then
    let others := filter (fun a => negb (String.eqb a "prod")) (mv_aliases mv) in
    {| mv_name := mv_name mv; mv_version := mv_version mv;
       mv_aliases :=
         if String.eqb (mv_version mv) (version (model_meta_data target))
         then others ++ ["prod"] else others;
       mv_model := mv_model mv |}
  else mv.

(** Modelled from the spec: [promote_to_prod] is a method of the missing
    [src/utils/models.py]; section 4.4 describes the promotion action as
    reassigning the production alias from the incumbent, if any, to the
    challenger, so that exactly one model holds it afterwards. *)
Definition promote_to_prod (self : LoadedModel) : M unit :=
  fun s => (Ok tt, {| st_frames := st_frames s;
                      st_registry := map (retag self) (st_registry s);
                      st_trace := st_trace s |}).

(** ** [log_promotion_status] and [main] *)

Definition log_promotion_status (model_version additional_info : string)
    (model_to_be_promoted : bool) : M unit :=
  if model_to_be_promoted then
    let message := ("Trained model version " ++ model_version ++ " promoted.")%string in
    logger_info (message ++ " " ++ additional_info)%string ;;
    wandb_alert message additional_info INFO
  else
    let message :=
      ("Trained model with version " ++ model_version ++ " not promoted.")%string in
    logger_warning (message ++ " " ++ additional_info)%string ;;
    wandb_alert message additional_info WARN.

Section Main.
Variable env : Env.

(** [main] returns [None] in Python; here it returns the last value of its
    local [model_to_be_promoted], so that statements can name the
    decision. *)
Definition main (config : Config) : M bool :=
  wandb_init (project_name config) "test_and_promote_model"
             (experiment_name config) ;;
  logger_info "Load hold out test data." ;;
  test_data <- read_dataframe_artifact (test_data_name config) "latest" ;;
  logger_info "Loading latest trained model." ;;
  loaded_model_challenger <-
    get_model (project_name config) (model_name config) "latest" ;;
  (if str_in "prod" (aliases (wandb_artifact loaded_model_challenger))
   then raise (ValueError
     "Latest trained model is already the production model. Something is wrong.")
   else ret tt) ;;
  logger_info "Loading current prod model if it exists." ;;
  loaded_model_current <-
    try_except
      (m <- get_model (project_name config) (model_name config) "prod" ;;
       ret (Some m))
      "ArtifactDoesNoteExistError"
      (ret None) ;;
  logger_info "Running single model tests." ;;
  run_use_artifact (wandb_artifact loaded_model_challenger) ;;
  single_model_test <-
    lift (SingleModelTest.__init__ env (model loaded_model_challenger)
            test_data (target_column config) (max_mae_to_promote config)) ;;
  match loaded_model_current with
  | None =>
      model_to_be_promoted <-
        lift (SingleModelTest.model_passes_tests single_model_test) ;;
      (if model_to_be_promoted
       then promote_to_prod loaded_model_challenger else ret tt) ;;
      additional_info <- lift (SingleModelTest.message env single_model_test) ;;
      log_promotion_status (version (model_meta_data loaded_model_challenger))
                           additional_info model_to_be_promoted ;;
      ret model_to_be_promoted
  | Some loaded_model_current =>
      logger_info "Running model challenger comparison tests." ;;
      run_use_artifact (wandb_artifact loaded_model_current) ;;
      challenger_model_test <-
        lift (ChallengerModelTest.__init__ env (model loaded_model_challenger)
                (model loaded_model_current) test_data (target_column config)) ;;
      model_to_be_promoted <-
        (passes <- lift (SingleModelTest.model_passes_tests single_model_test) ;;
         ret (if passes
              then ChallengerModelTest.challenger_model_is_better
                     challenger_model_test
              else false)) ;;
      (if model_to_be_promoted
       then promote_to_prod loaded_model_challenger else ret tt) ;;
      single_message <- lift (SingleModelTest.message env single_model_test) ;;
      log_promotion_status (version (model_meta_data loaded_model_challenger))
        (single_message ++ " "
         ++ ChallengerModelTest.message env challenger_model_test)%string
        model_to_be_promoted ;;
      ret model_to_be_promoted
  end.

End Main.

(** ** Observations used in the statements *)

(** The single-model gate as [main] runs it (lines 166 to 174): build the
    test object, then read its verdict. *)
Definition evaluate_single (env : Env) (model : Model) (test_data : DataFrame)
    (target_col : string) (max_mae : Q) : result bool :=
  self <~ SingleModelTest.__init__ env model test_data target_col max_mae ;;
  SingleModelTest.model_passes_tests self.

Definition is_alert (ev : event) : bool :=
  match ev with
  | WandbAlert _ _ _ => true
  | _ => false
  end.

Definition alerts_of (trace : list event) : list event := filter is_alert trace.

Definition is_use_artifact (ev : event) : bool :=
  match ev with
  | UseArtifact _ _ => true
  | _ => false
  end.

Definition zero_size_min : exn :=
  ValueError "zero-size array to reduction operation minimum which has no identity".

Definition already_prod : exn :=
  ValueError
    "Latest trained model is already the production model. Something is wrong.".

(** The state [s] after the run has appended [evs] to its trace. *)
Definition logged (s : State) (evs : list event) : State :=
  {| st_frames := st_frames s; st_registry := st_registry s;
     st_trace := st_trace s ++ evs |}.

(** The state [s] after the challenger took the production alias and the
    run appended [evs] to its trace. *)
Definition promoted (challenger : LoadedModel) (s : State) (evs : list event)
    : State :=
  {| st_frames := st_frames s;
     st_registry := map (retag challenger) (st_registry s);
     st_trace := st_trace s ++ evs |}.

(** The trace of a run, stage by stage. *)
Definition opening (config : Config) : list event :=
  [WandbInit (project_name config) "test_and_promote_model"
     (experiment_name config);
   LoggerInfo "Load hold out test data."].

Definition loading (config : Config) : list event :=
  opening config ++ [LoggerInfo "Loading latest trained model."].

Definition single_stage (config : Config) (challenger : LoadedModel)
    : list event :=
  loading config
  ++ [LoggerInfo "Loading current prod model if it exists.";
      LoggerInfo "Running single model tests.";
      UseArtifact (name (wandb_artifact challenger))
        (aliases (wandb_artifact challenger))].

Definition challenger_stage (config : Config) (challenger current : LoadedModel)
    : list event :=
  single_stage config challenger
  ++ [LoggerInfo "Running model challenger comparison tests.";
      UseArtifact (name (wandb_artifact current))
        (aliases (wandb_artifact current))].

(** What [log_promotion_status] appends. *)
Definition status_events (model_version additional_info : string)
    (model_to_be_promoted : bool) : list event :=
  if model_to_be_promoted then
    let message := ("Trained model version " ++ model_version ++ " promoted.")%string in
    [LoggerInfo (message ++ " " ++ additional_info)%string;
     WandbAlert message additional_info INFO]
  else
    let message :=
      ("Trained model with version " ++ model_version ++ " not promoted.")%string in
    [LoggerWarning (message ++ " " ++ additional_info)%string;
     WandbAlert message additional_info WARN].

(** The state at the end of a run that decided [model_to_be_promoted]. *)
Definition finish (challenger : LoadedModel) (s : State) (evs : list event)
    (model_to_be_promoted : bool) : State :=
  if model_to_be_promoted then promoted challenger s evs else logged s evs.

(** Data of the examples: a frame with a feature [x] and a target [y]. *)
Definition row (x y : Q) : Row := fun c => if String.eqb c "x" then x else y.

Definition frame (rows : list Row) : DataFrame :=
  {| df_columns := ["x"; "y"]; df_rows := rows |}.

Definition times (k : Q) : Model := fun r => r "x" * k.

Definition example_frame : DataFrame := frame [row 1 10; row 2 20].

Definition example_config : Config :=
  {| project_name := "mlops"; experiment_name := "batch";
     test_data_name := "test_data"; model_name := "model";
     target_column := "y"; max_mae_to_promote := 10 |}.

Definition version_0 : ModelVersion :=
  {| mv_name := "model"; mv_version := "v0"; mv_aliases := ["prod"];
     mv_model := times 4 |}.

Definition version_1 : ModelVersion :=
  {| mv_name := "model"; mv_version := "v1"; mv_aliases := ["latest"];
     mv_model := times 5 |}.

Definition version_1_prod : ModelVersion :=
  {| mv_name := "model"; mv_version := "v1"; mv_aliases := ["latest"; "prod"];
     mv_model := times 5 |}.

Definition store (frames : list (string * DataFrame))
    (registry : list ModelVersion) : State :=
  {| st_frames := frames; st_registry := registry; st_trace := [] |}.

Definition store_fresh : State :=
  store [("test_data", example_frame)] [version_1].

Definition store_incumbent : State :=
  store [("test_data", example_frame)] [version_0; version_1].

Definition store_already_prod : State :=
  store [("test_data", frame [])] [version_1_prod].

Definition store_no_data : State := store [] [version_0; version_1].

Definition store_no_model : State :=
  store [("test_data", example_frame)] [].

Definition example_single : SingleModelTest.t :=
  {| SingleModelTest.model := times 5;
     SingleModelTest.test_data := example_frame;
     SingleModelTest.target_col := "y";
     SingleModelTest.max_mae := 10;
     SingleModelTest.predictions := [5; 10];
     SingleModelTest.model_mae := 15 # 2 |}.

Definition example_comparison : ChallengerModelTest.t :=
  {| ChallengerModelTest.model_challenger := times 5;
     ChallengerModelTest.model_current := times 4;
     ChallengerModelTest.test_data := example_frame;
     ChallengerModelTest.target_col := "y";
     ChallengerModelTest.model_challenger_mae := 15 # 2;
     ChallengerModelTest.model_current_mae := 18 # 2 |}.

Definition example_tie : ChallengerModelTest.t :=
  {| ChallengerModelTest.model_challenger := times 15;
     ChallengerModelTest.model_current := times 5;
     ChallengerModelTest.test_data := example_frame;
     ChallengerModelTest.target_col := "y";
     ChallengerModelTest.model_challenger_mae := 15 # 2;
     ChallengerModelTest.model_current_mae := 15 # 2 |}.

Definition store_same_pipeline : State :=
  store [("test_data", example_frame)]
    [{| mv_name := "model"; mv_version := "v0"; mv_aliases := ["prod"];
        mv_model := times 5 |}; version_1].

(** * Drift detection: [src/data/feature_drift_detection.py]

    The script of the drift report, against a world of its own: the wandb
    API, the stored data frames, the files on disk and the trace of the
    calls to the logger and to wandb.  The computations of the evidently
    library are parameters. *)

(** [path] lies under the directory [dir]. *)
Definition is_inside (dir path : string) : bool :=
  String.prefix (dir ++ "/")%string path.

Module FeatureDriftDetection.

Inductive event : Type :=
| WandbInit (project job_type group : string)
| LoggerInfo (msg : string)
| LoggerWarning (msg : string)
| LogFile (file_path type name descr : string).

(** A run as the API shows it: the names of the artifacts it used. *)
Record ApiRun : Type := { used_artifacts : list string }.

(** An artifact as the API shows it: the run that logged it, if any. *)
Record ApiArtifact : Type := { logged_by : option ApiRun }.

(** What evidently computes from the reference and the current data: the
    page that [Dashboard.save] writes, and the profile with its JSON text
    and its count of drifted features. *)
Record Profile : Type := { json : string; n_drifted_features : Z }.

Record Evidently : Type := {
  dashboard_calculate : DataFrame -> DataFrame -> result string;
  profile_calculate : DataFrame -> DataFrame -> result Profile
}.

(** The world of a drift run.  [w_api] is what [wandb.Api().artifact]
    answers for a path, and [w_is_comm_error e] says whether [e] is an
    instance of [wandb.errors.CommError], the class itself or one of the
    subclasses the library derives from it. *)
Record World : Type := {
  w_api : string -> result ApiArtifact;
  w_is_comm_error : exn -> bool;
  w_frames : list (string * DataFrame);
  w_run_url : string;
  w_mkdtemp : nat -> string;
  w_tmp_count : nat;
  w_files : list (string * string);
  w_trace : list event
}.

Record Config : Type := {
  project_name : string;
  experiment_name : string;
  model_name : string;
  model_version : string;
  model_input_name : string;
  model_input_version : string;
  report_type : string;
  report_name : string;
  report_description : string;
  profile_type : string;
  profile_name : string;
  profile_description : string
}.

Definition M (A : Type) : Type := World -> result A * World.

Definition ret {A} (a : A) : M A := fun w => (Ok a, w).

Definition bind {A B} (m : M A) (k : A -> M B) : M B :=
  fun w =>
    match m w with
    | (Ok a, w') => k a w'
    | (Raise e, w') => (Raise e, w')
    end.

Definition raise {A} (e : exn) : M A := fun w => (Raise e, w).

Definition lift {A} (r : result A) : M A := fun w => (r, w).

Declare Scope drift_scope.
Delimit Scope drift_scope with drift.
Notation "x <- m ;; k" := (bind m (fun x => k))
  (at level 61, m at next level, right associativity) : drift_scope.
Notation "m ;; k" := (bind m (fun _ => k))
  (at level 61, right associativity) : drift_scope.
Local Open Scope drift_scope.

(** The world after [evs] were appended to the trace. *)
Definition append_trace (w : World) (evs : list event) : World :=
  {| w_api := w_api w; w_is_comm_error := w_is_comm_error w;
     w_frames := w_frames w; w_run_url := w_run_url w;
     w_mkdtemp := w_mkdtemp w; w_tmp_count := w_tmp_count w;
     w_files := w_files w; w_trace := w_trace w ++ evs |}.

(** The world after [content] was written to the file at [path]. *)
Definition put_file (w : World) (path content : string) : World :=
  {| w_api := w_api w; w_is_comm_error := w_is_comm_error w;
     w_frames := w_frames w; w_run_url := w_run_url w;
     w_mkdtemp := w_mkdtemp w; w_tmp_count := w_tmp_count w;
     w_files := (path, content) :: w_files w; w_trace := w_trace w |}.

(** The world after one more temporary directory was made. *)
Definition made_tmp (w : World) : World :=
  {| w_api := w_api w; w_is_comm_error := w_is_comm_error w;
     w_frames := w_frames w; w_run_url := w_run_url w;
     w_mkdtemp := w_mkdtemp w; w_tmp_count := S (w_tmp_count w);
     w_files := w_files w; w_trace := w_trace w |}.

(** The world after [dir] was removed with everything under it. *)
Definition removed_tree (w : World) (dir : string) : World :=
  {| w_api := w_api w; w_is_comm_error := w_is_comm_error w;
     w_frames := w_frames w; w_run_url := w_run_url w;
     w_mkdtemp := w_mkdtemp w; w_tmp_count := w_tmp_count w;
     w_files := filter (fun f => negb (is_inside dir (fst f))) (w_files w);
     w_trace := w_trace w |}.

Definition emit (ev : event) : M unit :=
  fun w => (Ok tt, append_trace w [ev]).

Definition logger_info (msg : string) : M unit := emit (LoggerInfo msg).
Definition logger_warning (msg : string) : M unit := emit (LoggerWarning msg).
Definition wandb_init (project job_type group : string) : M unit :=
  emit (WandbInit project job_type group).

(** Modelled from the spec: [log_file] of the missing [src/utils] hands a
    file to the artifact store under a type, a name and a description. *)
Definition log_file (file_path type name descr : string) : M unit :=
  emit (LogFile file_path type name descr).

(** Writing [content] to the file at [path]. *)
Definition write_file (path content : string) : M unit :=
  fun w => (Ok tt, put_file w path content).

(** [with TemporaryDirectory() as tmpdirname: body]: a fresh directory is
    made, and on the way out, also when the body raises, the directory is
    removed with everything under it. *)
Definition with_TemporaryDirectory {A} (body : string -> M A) : M A :=
  fun w =>
    let tmpdirname := w_mkdtemp w (w_tmp_count w) in
    let (r, w') := body tmpdirname (made_tmp w) in
    (r, removed_tree w' tmpdirname).

(** Modelled from the spec: [read_dataframe_artifact] of the missing
    [src/utils], here called with the tag of the artifact; section 6 lists
    [load_dataframe(name, version) -> table]. *)
Definition read_dataframe_artifact (artifact_tag : string) : M DataFrame :=
  fun w =>
    match assoc (w_frames w) artifact_tag with
    | Some df => (Ok df, w)
    | None => (Raise (ArtifactDoesNoteExistError artifact_tag), w)
    end.

(** [wandb.Api().artifact(path)]. *)
Definition api_artifact (path : string) : M ApiArtifact :=
  fun w => (w_api w path, w).

(** [run.get_url()]. *)
Definition run_get_url : M string := fun w => (Ok (w_run_url w), w).

(** [l[0]]. *)
Definition first {A} (l : list A) : result A :=
  match l with
  | x :: _ => Ok x
  | [] => Raise (Exception "IndexError" "list index out of range")
  end.

(** [try: body / except cls as e: handler], where [catches w e] says
    whether [e] is an instance of [cls], the class itself or a subclass. *)
Definition try_except {A} (body : M A) (catches : World -> exn -> bool)
    (handler : exn -> M A) : M A :=
  fun w =>
    match body w with
    | (Ok a, w') => (Ok a, w')
    | (Raise e, w') => if catches w' e then handler e w' else (Raise e, w')
    end.

Definition get_model_training_data
    (project_name model_name model_version : string) : M DataFrame :=
  artifact <-
    try_except
      (api_artifact
         (project_name ++ "/" ++ model_name ++ ":" ++ model_version)%string)
      w_is_comm_error
      (fun e =>
         raise (ValueError
                  ("Trained model version does not exist. From WANDB: "
                   ++ exn_msg e)%string)) ;;
  training_run <-
    match logged_by artifact with
    | Some training_run => ret training_run
    | None => raise (Exception "AttributeError"
                "'NoneType' object has no attribute 'used_artifacts'")
    end ;;
  training_data_artifact_name <- lift (first (used_artifacts training_run)) ;;
  read_dataframe_artifact training_data_artifact_name.

Definition data_drift_report_file_name (tmpdirname : string) : string :=
  (tmpdirname ++ "data_drift_report.html")%string.

Definition data_drift_profile_file_name (tmpdirname : string) : string :=
  (tmpdirname ++ "data_drift_profile.json")%string.

Section Main.
Variable evidently : Evidently.

Definition main (config : Config) : M unit :=
  wandb_init (project_name config) "drift_detection" (experiment_name config) ;;
  training_data <-
    get_model_training_data (project_name config) (model_name config)
      (model_version config) ;;
  logger_info "Load data used for inference." ;;
  inference_data <-
    read_dataframe_artifact
      (model_input_name config ++ ":" ++ model_input_version config)%string ;;
  logger_info "Create and log data drift report." ;;
  data_drift_report <-
    lift (dashboard_calculate evidently training_data inference_data) ;;
  with_TemporaryDirectory (fun tmpdirname =>
    write_file (data_drift_report_file_name tmpdirname) data_drift_report ;;
    log_file (data_drift_report_file_name tmpdirname)
      (report_type config) (report_name config) (report_description config)) ;;
  logger_info "Create and log data drift profile." ;;
  data_drift_profile <-
    lift (profile_calculate evidently training_data inference_data) ;;
  with_TemporaryDirectory (fun tmpdirname =>
    write_file (data_drift_profile_file_name tmpdirname)
      (json data_drift_profile) ;;
    log_file (data_drift_profile_file_name tmpdirname)
      (profile_type config) (profile_name config)
      (profile_description config)) ;;
  let n_drifted_features := n_drifted_features data_drift_profile in
  if (0 <? n_drifted_features)%Z
  then
    url <- run_get_url ;;
    logger_warning
      ("Data drift detected on " ++ string_of_Z n_drifted_features
       ++ ". Check data drift report and profile in run:" ++ url)%string
  else ret tt.

End Main.

End FeatureDriftDetection.

(** The file that [train_evaluate] of [src/models/train_and_evaluate.py]
    dumps the fitted pipeline to (line 69). *)
Definition model_pickle_file_name (tmpdirname : string) : string :=
  (tmpdirname ++ "model.pickle")%string.

(** Data of the drift examples. *)
Definition drift_config : FeatureDriftDetection.Config :=
  {| FeatureDriftDetection.project_name := "mlops";
     FeatureDriftDetection.experiment_name := "batch";
     FeatureDriftDetection.model_name := "model";
     FeatureDriftDetection.model_version := "prod";
     FeatureDriftDetection.model_input_name := "model-input";
     FeatureDriftDetection.model_input_version := "latest";
     FeatureDriftDetection.report_type := "report";
     FeatureDriftDetection.report_name := "data-drift-report";
     FeatureDriftDetection.report_description := "Data drift report";
     FeatureDriftDetection.profile_type := "profile";
     FeatureDriftDetection.profile_name := "data-drift-profile";
     FeatureDriftDetection.profile_description := "Data drift profile" |}.

Definition drift_config_v9 : FeatureDriftDetection.Config :=
  {| FeatureDriftDetection.project_name := "mlops";
     FeatureDriftDetection.experiment_name := "batch";
     FeatureDriftDetection.model_name := "model";
     FeatureDriftDetection.model_version := "v9";
     FeatureDriftDetection.model_input_name := "model-input";
     FeatureDriftDetection.model_input_version := "latest";
     FeatureDriftDetection.report_type := "report";
     FeatureDriftDetection.report_name := "data-drift-report";
     FeatureDriftDetection.report_description := "Data drift report";
     FeatureDriftDetection.profile_type := "profile";
     FeatureDriftDetection.profile_name := "data-drift-profile";
     FeatureDriftDetection.profile_description := "Data drift profile" |}.

Definition drift_config_private : FeatureDriftDetection.Config :=
  {| FeatureDriftDetection.project_name := "mlops";
     FeatureDriftDetection.experiment_name := "batch";
     FeatureDriftDetection.model_name := "private";
     FeatureDriftDetection.model_version := "v1";
     FeatureDriftDetection.model_input_name := "model-input";
     FeatureDriftDetection.model_input_version := "latest";
     FeatureDriftDetection.report_type := "report";
     FeatureDriftDetection.report_name := "data-drift-report";
     FeatureDriftDetection.report_description := "Data drift report";
     FeatureDriftDetection.profile_type := "profile";
     FeatureDriftDetection.profile_name := "data-drift-profile";
     FeatureDriftDetection.profile_description := "Data drift profile" |}.

(** An evidently that counts as drifted the columns of the reference
    data. *)
Definition example_evidently : FeatureDriftDetection.Evidently :=
  {| FeatureDriftDetection.dashboard_calculate := fun _ _ => Ok "<html/>";
     FeatureDriftDetection.profile_calculate :=
       fun reference _ =>
         Ok {| FeatureDriftDetection.json := "{}";
               FeatureDriftDetection.n_drifted_features :=
                 Z.of_nat (List.length (df_columns reference)) |} |}.

Definition example_api (used : list string) (path : string)
    : result FeatureDriftDetection.ApiArtifact :=
  if String.eqb path "mlops/model:prod"
  then Ok {| FeatureDriftDetection.logged_by :=
               Some {| FeatureDriftDetection.used_artifacts := used |} |}
  else if String.eqb path "mlops/model:v9"
  then Raise (Exception "CommError" ("no artifact " ++ path)%string)
  else Raise (Exception "AuthenticationError" "not logged in").

Definition example_mkdtemp (n : nat) : string :=
  ("/tmp/tmp" ++ string_of_Z (Z.of_nat n))%string.

Definition drift_world (used : list string) : FeatureDriftDetection.World :=
  {| FeatureDriftDetection.w_api := example_api used;
     FeatureDriftDetection.w_is_comm_error :=
       fun e => str_in (exn_class e) ["CommError"; "AuthenticationError"];
     FeatureDriftDetection.w_frames :=
       [("train-validate:v3", example_frame); ("model-input:latest", frame [])];
     FeatureDriftDetection.w_run_url := "https://wandb.ai/run/1";
     FeatureDriftDetection.w_mkdtemp := example_mkdtemp;
     FeatureDriftDetection.w_tmp_count := 0;
     FeatureDriftDetection.w_files := [];
     FeatureDriftDetection.w_trace := [] |}.

(** The world [w] after the run has appended [evs] to its trace. *)
Definition traced (w : FeatureDriftDetection.World)
    (evs : list FeatureDriftDetection.event) : FeatureDriftDetection.World :=
  FeatureDriftDetection.append_trace w evs.

(** The path that [get_model_training_data] asks the API for. *)
Definition model_path (config : FeatureDriftDetection.Config) : string :=
  (FeatureDriftDetection.project_name config ++ "/"
   ++ FeatureDriftDetection.model_name config ++ ":"
   ++ FeatureDriftDetection.model_version config)%string.

Definition is_log_file (ev : FeatureDriftDetection.event) : bool :=
  match ev with
  | FeatureDriftDetection.LogFile _ _ _ _ => true
  | _ => false
  end.

Definition is_warning (ev : FeatureDriftDetection.event) : bool :=
  match ev with
  | FeatureDriftDetection.LoggerWarning _ => true
  | _ => false
  end.

(** The trace of a drift run that completes, given the two temporary
    directories, the count of drifted features and the URL of the run. *)
Definition drift_trace (config : FeatureDriftDetection.Config)
    (tmp_report tmp_profile : string) (n_drifted_features : Z) (url : string)
    : list FeatureDriftDetection.event :=
  [FeatureDriftDetection.WandbInit
     (FeatureDriftDetection.project_name config) "drift_detection"
     (FeatureDriftDetection.experiment_name config);
   FeatureDriftDetection.LoggerInfo "Load data used for inference.";
   FeatureDriftDetection.LoggerInfo "Create and log data drift report.";
   FeatureDriftDetection.LogFile
     (FeatureDriftDetection.data_drift_report_file_name tmp_report)
     (FeatureDriftDetection.report_type config)
     (FeatureDriftDetection.report_name config)
     (FeatureDriftDetection.report_description config);
   FeatureDriftDetection.LoggerInfo "Create and log data drift profile.";
   FeatureDriftDetection.LogFile
     (FeatureDriftDetection.data_drift_profile_file_name tmp_profile)
     (FeatureDriftDetection.profile_type config)
     (FeatureDriftDetection.profile_name config)
     (FeatureDriftDetection.profile_description config)]
  ++ (if (0 <? n_drifted_features)%Z
      then [FeatureDriftDetection.LoggerWarning
              ("Data drift detected on " ++ string_of_Z n_drifted_features
               ++ ". Check data drift report and profile in run:" ++ url)%string]
      else []).

(** * Properties *)

(** ** Numbers *)

Lemma Qltb_lt (x y : Q) : Qltb x y = true <-> x < y.
Proof. unfold Qltb, Qlt. apply Z.ltb_lt. Qed.

Lemma Qltb_ge (x y : Q) : Qltb x y = false <-> y <= x.
Proof. unfold Qltb, Qle. rewrite Z.ltb_ge. reflexivity. Qed.

Lemma fold_min_positive (xs : list Q) :
  forall x, 0 < fold_left Qmin xs x <-> 0 < x /\ Forall (fun p => 0 < p) xs.
Proof.
  induction xs as [|y ys IH]; intros x; simpl.
  - split; [intros H; split; [exact H | constructor] | intros [H _]; exact H].
  - rewrite IH, Q.min_glb_lt_iff. split.
    + intros [[Hx Hy] Hys]. split; [exact Hx | constructor; assumption].
    + intros [Hx Hall]. inversion Hall; subst. repeat split; assumption.
Qed.

Lemma ndarray_min_positive (a : list Q) (m : Q) :
  ndarray_min a = Ok m -> (0 < m <-> Forall (fun p => 0 < p) a).
Proof.
  destruct a as [|x xs]; simpl; intros H; [discriminate|].
  injection H as <-. rewrite fold_min_positive. split.
  - intros [Hx Hxs]. constructor; assumption.
  - intros Hall. inversion Hall; subst. split; assumption.
Qed.

Lemma ndarray_min_nonempty (a : list Q) :
  a <> [] -> exists m, ndarray_min a = Ok m.
Proof.
  destruct a as [|x xs]; intros H; [congruence|]. simpl. eauto.
Qed.

(** ** Strings *)

Lemma append_assoc (a b c : string) :
  ((a ++ b) ++ c = a ++ (b ++ c))%string.
Proof.
  induction a as [|ch a IH]; simpl; [reflexivity|]. rewrite IH. reflexivity.
Qed.

(** ** The single-model gate *)

Lemma single_init_fields env model test_data target_col max_mae self :
  SingleModelTest.__init__ env model test_data target_col max_mae = Ok self ->
  SingleModelTest.predictions self = predict model test_data
  /\ SingleModelTest.max_mae self = max_mae
  /\ SingleModelTest._calc_model_mae env (predict model test_data)
       test_data target_col = Ok (SingleModelTest.model_mae self).
Proof.
  unfold SingleModelTest.__init__.
  destruct (SingleModelTest._calc_model_mae env (predict model test_data)
              test_data target_col) as [mae|e]; simpl; intros H;
    [|discriminate].
  injection H as <-. simpl. auto.
Qed.

Lemma predict_nonempty model test_data :
  df_rows test_data <> [] -> predict model test_data <> [].
Proof.
  unfold predict. destruct (df_rows test_data); simpl; congruence.
Qed.

Lemma passes_tests_value self m :
  ndarray_min (SingleModelTest.predictions self) = Ok m ->
  SingleModelTest.model_passes_tests self
  = Ok (SingleModelTest._model_has_ok_mae self && Qltb 0 m).
Proof.
  intros H. unfold SingleModelTest.model_passes_tests,
    SingleModelTest._predictions_all_positive. rewrite H. reflexivity.
Qed.

(** With the evaluation of the design document the constructor succeeds
    on every non-empty frame that has the target column. *)
Lemma spec_single_init_total model test_data target_col max_mae :
  df_rows test_data <> [] ->
  In target_col (df_columns test_data) ->
  exists self,
    SingleModelTest.__init__ spec_env model test_data target_col max_mae
    = Ok self.
Proof.
  intros _ Hcol.
  unfold SingleModelTest.__init__, SingleModelTest._calc_model_mae, df_getitem.
  destruct (in_dec string_dec target_col (df_columns test_data)) as [_|Hn];
    [|contradiction].
  cbn [rbind spec_env get_metrics]. unfold spec_get_metrics, predict.
  rewrite !length_map, Nat.eqb_refl. simpl. eauto.
Qed.

(** C2. On a non-empty test set the single-model gate returns a verdict,
    and the verdict is true exactly when the computed MAE is strictly
    below the threshold and every prediction is strictly positive; an MAE
    at or above the threshold fails it whatever the predictions, and one
    prediction at or below zero fails it whatever the MAE. *)
Theorem single_gate_verdict env model test_data target_col max_mae self :
  df_rows test_data <> [] ->
  SingleModelTest.__init__ env model test_data target_col max_mae = Ok self ->
  exists verdict,
    SingleModelTest.model_passes_tests self = Ok verdict
    /\ evaluate_single env model test_data target_col max_mae = Ok verdict
    /\ (verdict = true <->
        SingleModelTest.model_mae self < max_mae
        /\ Forall (fun p => 0 < p) (predict model test_data))
    /\ (max_mae <= SingleModelTest.model_mae self -> verdict = false)
    /\ (Exists (fun p => p <= 0) (predict model test_data) -> verdict = false).
Proof.
  intros Hrows Hinit.
  destruct (single_init_fields _ _ _ _ _ _ Hinit) as (Hpred & Hmax & _).
  destruct (ndarray_min_nonempty _ (predict_nonempty model _ Hrows)) as [m Hm].
  rewrite <- Hpred in Hm.
  pose proof (ndarray_min_positive _ _ Hm) as Hpos. rewrite Hpred in Hpos.
  assert (Hiff : SingleModelTest._model_has_ok_mae self && Qltb 0 m = true <->
                 SingleModelTest.model_mae self < max_mae
                 /\ Forall (fun p => 0 < p) (predict model test_data)).
  { rewrite andb_true_iff, Qltb_lt, <- Hpos.
    unfold SingleModelTest._model_has_ok_mae. rewrite Qltb_lt, Hmax.
    reflexivity. }
  exists (SingleModelTest._model_has_ok_mae self && Qltb 0 m).
  split; [apply passes_tests_value; exact Hm|].
  split; [unfold evaluate_single; rewrite Hinit; simpl;
          apply passes_tests_value; exact Hm|].
  split; [exact Hiff|]. split.
  - intros Hge. apply not_true_is_false. intros Ht.
    apply Hiff in Ht. destruct Ht as [Hlt _].
    exact (Qlt_not_le _ _ Hlt Hge).
  - intros Hex. apply not_true_is_false. intros Ht.
    apply Hiff in Ht. destruct Ht as [_ Hall].
    apply Exists_exists in Hex. destruct Hex as (p & Hin & Hle).
    rewrite Forall_forall in Hall.
    exact (Qlt_not_le _ _ (Hall p Hin) Hle).
Qed.

(** The message of the single-model gate, whatever the MAE: the branch of
    line 76 is taken on the method object, so the first sentence is always
    the one of the passing case. *)
Lemma single_message_value env self positive :
  SingleModelTest._predictions_all_positive self = Ok positive ->
  SingleModelTest.message env self
  = Ok ("The model has MAE of " ++ str env (SingleModelTest.model_mae self)
        ++ ", which is under the max threshold of "
        ++ str env (SingleModelTest.max_mae self) ++ ". "
        ++ (if positive then "The model passes all edge cases"
            else "The model does not pass all edge cases") ++ ".")%string.
Proof.
  intros H. unfold SingleModelTest.message, bound_method_truth.
  rewrite H. simpl. f_equal.
  rewrite !append_assoc. reflexivity.
Qed.

(** C7. A run of the message on a model whose MAE, 15, is above the
    threshold, 10: the comparison of the gate is false, the verdict is
    false, and the message says that the MAE is under the threshold. *)
Theorem single_message_above_threshold :
  exists self,
    SingleModelTest.__init__ spec_env (times 15) (frame [row 2 15; row 4 75])
      "y" 10 = Ok self
    /\ SingleModelTest._model_has_ok_mae self = false
    /\ SingleModelTest.model_passes_tests self = Ok false
    /\ SingleModelTest.message spec_env self
       = Ok "The model has MAE of 15, which is under the max threshold of 10. The model passes all edge cases.".
Proof.
  eexists. split; [reflexivity|]. repeat split.
Qed.

(** On an empty test set the positivity check raises, and with it the
    verdict and the message. *)
Lemma empty_predictions_raise env self :
  SingleModelTest.predictions self = [] ->
  SingleModelTest.model_passes_tests self = Raise zero_size_min
  /\ SingleModelTest.message env self = Raise zero_size_min.
Proof.
  intros H. unfold SingleModelTest.model_passes_tests, SingleModelTest.message,
    SingleModelTest._predictions_all_positive. rewrite H. simpl. auto.
Qed.

(** C8, as the code has it. On an empty test set the single-model gate
    fails with an error and never returns a verdict, passing or not.  The
    error is no [InsufficientDataError] of the gate, which has no check
    for an empty test set: when the test object gets built it is numpy's
    [ValueError] for the minimum of an empty array, raised by the verdict
    and by the message alike. *)
Theorem single_gate_empty env model test_data target_col max_mae :
  df_rows test_data = [] ->
  (forall self,
     SingleModelTest.__init__ env model test_data target_col max_mae = Ok self ->
     SingleModelTest.model_passes_tests self = Raise zero_size_min
     /\ SingleModelTest.message env self = Raise zero_size_min)
  /\ (exists e, evaluate_single env model test_data target_col max_mae = Raise e).
Proof.
  intros Hrows.
  assert (Hp : predict model test_data = []) by (unfold predict; rewrite Hrows; reflexivity).
  assert (Hself : forall self,
     SingleModelTest.__init__ env model test_data target_col max_mae = Ok self ->
     SingleModelTest.model_passes_tests self = Raise zero_size_min
     /\ SingleModelTest.message env self = Raise zero_size_min).
  { intros self Hinit. apply empty_predictions_raise.
    destruct (single_init_fields _ _ _ _ _ _ Hinit) as (-> & _). exact Hp. }
  split; [exact Hself|].
  unfold evaluate_single.
  destruct (SingleModelTest.__init__ env model test_data target_col max_mae)
    as [self|e] eqn:Hinit; simpl.
  - exists zero_size_min. apply (Hself self eq_refl).
  - exists e. reflexivity.
Qed.

(** ** The challenger gate *)

Lemma challenger_init_fields env model_challenger model_current test_data
    target_col self :
  ChallengerModelTest.__init__ env model_challenger model_current test_data
    target_col = Ok self ->
  ChallengerModelTest._calc_model_mae env model_challenger test_data target_col
  = Ok (ChallengerModelTest.model_challenger_mae self)
  /\ ChallengerModelTest._calc_model_mae env model_current test_data target_col
     = Ok (ChallengerModelTest.model_current_mae self).
Proof.
  unfold ChallengerModelTest.__init__.
  destruct (ChallengerModelTest._calc_model_mae env model_challenger test_data
              target_col) as [c|e]; simpl; [|discriminate].
  destruct (ChallengerModelTest._calc_model_mae env model_current test_data
              target_col) as [i|e]; simpl; [|discriminate].
  intros H. injection H as <-. simpl. auto.
Qed.

(** C3. The two MAEs of the challenger gate are computed on the same test
    data, and the gate passes exactly when the challenger's is strictly
    below the incumbent's; equal MAEs fail it. *)
Theorem challenger_gate_verdict env model_challenger model_current test_data
    target_col self :
  ChallengerModelTest.__init__ env model_challenger model_current test_data
    target_col = Ok self ->
  ChallengerModelTest._calc_model_mae env model_challenger test_data target_col
  = Ok (ChallengerModelTest.model_challenger_mae self)
  /\ ChallengerModelTest._calc_model_mae env model_current test_data target_col
     = Ok (ChallengerModelTest.model_current_mae self)
  /\ (ChallengerModelTest.challenger_model_is_better self = true <->
      ChallengerModelTest.model_challenger_mae self
      < ChallengerModelTest.model_current_mae self)
  /\ (ChallengerModelTest.model_challenger_mae self
      == ChallengerModelTest.model_current_mae self ->
      ChallengerModelTest.challenger_model_is_better self = false).
Proof.
  intros Hinit.
  destruct (challenger_init_fields _ _ _ _ _ _ Hinit) as [Hc Hi].
  repeat split; try assumption.
  - apply Qltb_lt.
  - apply Qltb_lt.
  - intros Heq. apply Qltb_ge. rewrite Heq. apply Qle_refl.
Qed.

(** C10. The message of the challenger gate has two wordings, and on
    equal MAEs it is the one that calls the challenger worse. *)
Theorem challenger_message_tie env self :
  let better :=
    ("Challenger model has MAE of "
     ++ str env (ChallengerModelTest.model_challenger_mae self)
     ++ ", which is better than the current models performance of "
     ++ str env (ChallengerModelTest.model_current_mae self) ++ ".")%string in
  let worse :=
    ("Challenger model has MAE of "
     ++ str env (ChallengerModelTest.model_challenger_mae self)
     ++ ", which is worse than the current models performance of "
     ++ str env (ChallengerModelTest.model_current_mae self) ++ ".")%string in
  (ChallengerModelTest.message env self = better
   \/ ChallengerModelTest.message env self = worse)
  /\ (ChallengerModelTest.model_challenger_mae self
      == ChallengerModelTest.model_current_mae self ->
      ChallengerModelTest.message env self = worse).
Proof.
  intros better worse.
  assert (Hb : ChallengerModelTest.challenger_model_is_better self = true ->
               ChallengerModelTest.message env self = better).
  { intros H. unfold ChallengerModelTest.message. rewrite H.
    unfold better. rewrite !append_assoc. reflexivity. }
  assert (Hw : ChallengerModelTest.challenger_model_is_better self = false ->
               ChallengerModelTest.message env self = worse).
  { intros H. unfold ChallengerModelTest.message. rewrite H.
    unfold worse. rewrite !append_assoc. reflexivity. }
  split.
  - destruct (ChallengerModelTest.challenger_model_is_better self) eqn:E; auto.
  - intros Heq. apply Hw. apply Qltb_ge. rewrite Heq. apply Qle_refl.
Qed.

(** ** The run *)

Lemma logged_logged s a b : logged (logged s a) b = logged s (a ++ b).
Proof. unfold logged. simpl. rewrite app_assoc. reflexivity. Qed.

Lemma log_promotion_status_run model_version additional_info v s :
  log_promotion_status model_version additional_info v s
  = (Ok tt, logged s (status_events model_version additional_info v)).
Proof.
  destruct v; unfold log_promotion_status, status_events, bind, logger_info,
    logger_warning, wandb_alert, emit, logged; simpl;
    rewrite <- app_assoc; reflexivity.
Qed.

Ltac same_state :=
  unfold finish, promoted, logged, challenger_stage, single_stage, loading,
    opening;
  simpl; repeat rewrite <- app_assoc; simpl; reflexivity.

(** [main] by cases on what the store holds and on what the gates
    return. *)
Lemma main_eq env config s :
  main env config s =
  match assoc (st_frames s) (test_data_name config) with
  | None =>
      (Raise (ArtifactDoesNoteExistError (test_data_name config)),
       logged s (opening config))
  | Some test_data =>
  match find (matches (model_name config) "latest") (st_registry s) with
  | None =>
      (Raise (ArtifactDoesNoteExistError (model_name config)),
       logged s (loading config))
  | Some mv =>
  let challenger := load mv in
  if str_in "prod" (mv_aliases mv)
  then (Raise already_prod, logged s (loading config))
  else
  match SingleModelTest.__init__ env (mv_model mv) test_data
          (target_column config) (max_mae_to_promote config) with
  | Raise e => (Raise e, logged s (single_stage config challenger))
  | Ok single =>
  match find (matches (model_name config) "prod") (st_registry s) with
  | None =>
      match SingleModelTest.model_passes_tests single with
      | Raise e => (Raise e, logged s (single_stage config challenger))
      | Ok v =>
      match SingleModelTest.message env single with
      | Raise e => (Raise e, finish challenger s (single_stage config challenger) v)
      | Ok info =>
          (Ok v, finish challenger s
                   (single_stage config challenger
                    ++ status_events (mv_version mv) info v) v)
      end
      end
  | Some cur =>
      let current := load cur in
      match ChallengerModelTest.__init__ env (mv_model mv) (mv_model cur)
              test_data (target_column config) with
      | Raise e => (Raise e, logged s (challenger_stage config challenger current))
      | Ok comparison =>
      match SingleModelTest.model_passes_tests single with
      | Raise e => (Raise e, logged s (challenger_stage config challenger current))
      | Ok passes =>
      let v := if passes
               then ChallengerModelTest.challenger_model_is_better comparison
               else false in
      match SingleModelTest.message env single with
      | Raise e =>
          (Raise e, finish challenger s
                      (challenger_stage config challenger current) v)
      | Ok info =>
          (Ok v, finish challenger s
                   (challenger_stage config challenger current
                    ++ status_events (mv_version mv)
                         (info ++ " "
                          ++ ChallengerModelTest.message env comparison)%string v)
                   v)
      end
      end
      end
  end
  end
  end
  end.
Proof.
  unfold main, bind, wandb_init, logger_info, emit, read_dataframe_artifact,
    get_model, try_except, run_use_artifact, lift, raise, ret; simpl.
  destruct (assoc (st_frames s) (test_data_name config)) as [test_data|];
    simpl; [|same_state].
  destruct (find (matches (model_name config) "latest") (st_registry s))
    as [mv|]; simpl; [|same_state].
  destruct (str_in "prod" (mv_aliases mv)); simpl; [same_state|].
  destruct (find (matches (model_name config) "prod") (st_registry s))
    as [cur|]; simpl;
    (destruct (SingleModelTest.__init__ env (mv_model mv) test_data
                 (target_column config) (max_mae_to_promote config))
       as [single|e]; simpl; [|same_state]).
  - destruct (ChallengerModelTest.__init__ env (mv_model mv) (mv_model cur)
                test_data (target_column config)) as [comparison|e]; simpl;
      [|same_state].
    destruct (SingleModelTest.model_passes_tests single) as [passes|e]; simpl;
      [|same_state].
    destruct (SingleModelTest.message env single) as [info|e];
      destruct passes; simpl;
      try destruct (ChallengerModelTest.challenger_model_is_better comparison);
      unfold promote_to_prod; simpl;
      try rewrite log_promotion_status_run; same_state.
  - destruct (SingleModelTest.model_passes_tests single) as [v|e]; simpl;
      [|same_state].
    destruct (SingleModelTest.message env single) as [info|e];
      destruct v; unfold promote_to_prod; simpl;
      try rewrite log_promotion_status_run; same_state.
Qed.

(** A run that completes went through both loads, the alias check, the
    single-model gate and its message, and ended in the state written
    here. *)
Lemma main_completed env config s d s' :
  main env config s = (Ok d, s') ->
  exists test_data mv single verdict info,
    assoc (st_frames s) (test_data_name config) = Some test_data
    /\ find (matches (model_name config) "latest") (st_registry s) = Some mv
    /\ str_in "prod" (mv_aliases mv) = false
    /\ SingleModelTest.__init__ env (mv_model mv) test_data
         (target_column config) (max_mae_to_promote config) = Ok single
    /\ SingleModelTest.model_passes_tests single = Ok verdict
    /\ SingleModelTest.message env single = Ok info
    /\ match find (matches (model_name config) "prod") (st_registry s) with
       | None =>
           d = verdict
           /\ s' = finish (load mv) s
                     (single_stage config (load mv)
                      ++ status_events (mv_version mv) info d) d
       | Some cur =>
           exists comparison,
             ChallengerModelTest.__init__ env (mv_model mv) (mv_model cur)
               test_data (target_column config) = Ok comparison
             /\ d = (if verdict
                     then ChallengerModelTest.challenger_model_is_better comparison
                     else false)
             /\ s' = finish (load mv) s
                       (challenger_stage config (load mv) (load cur)
                        ++ status_events (mv_version mv)
                             (info ++ " "
                              ++ ChallengerModelTest.message env comparison)%string
                             d) d
       end.
Proof.
  rewrite main_eq.
  destruct (assoc (st_frames s) (test_data_name config)) as [test_data|];
    [|discriminate].
  destruct (find (matches (model_name config) "latest") (st_registry s))
    as [mv|]; [|discriminate].
  cbv zeta.
  destruct (str_in "prod" (mv_aliases mv)) eqn:Hprod; [discriminate|].
  destruct (SingleModelTest.__init__ env (mv_model mv) test_data
              (target_column config) (max_mae_to_promote config))
    as [single|e] eqn:Hinit; [|discriminate].
  destruct (find (matches (model_name config) "prod") (st_registry s))
    as [cur|].
  - destruct (ChallengerModelTest.__init__ env (mv_model mv) (mv_model cur)
                test_data (target_column config)) as [comparison|e] eqn:Hcmp;
      [|discriminate].
    destruct (SingleModelTest.model_passes_tests single) as [verdict|e]
      eqn:Hpass; [|discriminate].
    destruct (SingleModelTest.message env single) as [info|e] eqn:Hmsg;
      [|discriminate].
    intros H. injection H as <- <-.
    exists test_data, mv, single, verdict, info.
    do 6 (split; [assumption || reflexivity|]).
    exists comparison. split; [exact Hcmp|]. split; reflexivity.
  - destruct (SingleModelTest.model_passes_tests single) as [verdict|e]
      eqn:Hpass; [|discriminate].
    destruct (SingleModelTest.message env single) as [info|e] eqn:Hmsg;
      [|discriminate].
    intros H. injection H as <- <-.
    exists test_data, mv, single, verdict, info.
    do 6 (split; [assumption || reflexivity|]). split; reflexivity.
Qed.

(** A test object that gives a verdict also gives its message. *)
Lemma passes_gives_message env self verdict :
  SingleModelTest.model_passes_tests self = Ok verdict ->
  exists info, SingleModelTest.message env self = Ok info.
Proof.
  unfold SingleModelTest.model_passes_tests.
  destruct (SingleModelTest._predictions_all_positive self) as [positive|e]
    eqn:Hpos; simpl; [|discriminate].
  intros _. eexists. apply (single_message_value env self positive Hpos).
Qed.

Lemma alerts_of_app a b : alerts_of (a ++ b) = alerts_of a ++ alerts_of b.
Proof. unfold alerts_of. apply filter_app. Qed.

Lemma finish_trace challenger s evs v :
  st_trace (finish challenger s evs v) = st_trace s ++ evs.
Proof. destruct v; reflexivity. Qed.

Lemma alerts_of_status model_version info v :
  alerts_of (status_events model_version info v)
  = [WandbAlert
       (if v
        then "Trained model version " ++ model_version ++ " promoted."
        else "Trained model with version " ++ model_version ++ " not promoted.")%string
       info (if v then INFO else WARN)].
Proof. destruct v; reflexivity. Qed.

(** C1. In a run whose loads succeed, whose challenger does not carry
    the production alias and whose single-model gate returns a verdict:
    without an incumbent the decision of the run is that verdict; with an
    incumbent whose comparison is built, the decision is the conjunction
    of the verdict and of the challenger gate, true exactly when both are,
    and whatever the two outcomes the alert of the run carries the message
    of the single-model gate followed by the message of the challenger
    gate.  By [main_completed] every run that reaches a decision is such a
    run. *)
Theorem promotion_decision env config s test_data mv single verdict :
  assoc (st_frames s) (test_data_name config) = Some test_data ->
  find (matches (model_name config) "latest") (st_registry s) = Some mv ->
  str_in "prod" (mv_aliases mv) = false ->
  SingleModelTest.__init__ env (mv_model mv) test_data
    (target_column config) (max_mae_to_promote config) = Ok single ->
  SingleModelTest.model_passes_tests single = Ok verdict ->
  match find (matches (model_name config) "prod") (st_registry s) with
  | None => fst (main env config s) = Ok verdict
  | Some cur =>
      forall comparison,
        ChallengerModelTest.__init__ env (mv_model mv) (mv_model cur)
          test_data (target_column config) = Ok comparison ->
        let better :=
          ChallengerModelTest.challenger_model_is_better comparison in
        fst (main env config s) = Ok (verdict && better)
        /\ (verdict && better = true <-> verdict = true /\ better = true)
        /\ exists info title,
             SingleModelTest.message env single = Ok info
             /\ alerts_of (st_trace (snd (main env config s)))
                = alerts_of (st_trace s)
                  ++ [WandbAlert title
                        (info ++ " "
                         ++ ChallengerModelTest.message env comparison)%string
                        (if verdict && better then INFO else WARN)]
  end.
Proof.
  intros Hdata Hlatest Hprod Hinit Hpass.
  destruct (passes_gives_message env _ _ Hpass) as [info Hmsg].
  rewrite main_eq, Hdata, Hlatest. cbv zeta. rewrite Hprod, Hinit.
  destruct (find (matches (model_name config) "prod") (st_registry s))
    as [cur|].
  - intros comparison Hcmp. rewrite Hcmp, Hpass, Hmsg. cbv zeta.
    split; [reflexivity|]. split; [apply andb_true_iff|].
    exists info. eexists. split; [reflexivity|].
    cbn [snd]. rewrite finish_trace, !alerts_of_app, alerts_of_status.
    unfold challenger_stage, single_stage, loading, opening. simpl.
    reflexivity.
  - rewrite Hpass, Hmsg. reflexivity.
Qed.

(** C4. When the freshly loaded challenger already carries the
    production alias the run raises the [ValueError] of line 150, which the
    design document names [AlreadyPromotedError]: the store is as it was,
    and all the run has done is to open the wandb run and to log its two
    loading lines, so that [run.use_artifact] was not called, no test
    object was built, nothing was promoted and no alert was sent.  The test data
    plays no part: the result is the same on data for which a gate would
    raise. *)
Theorem challenger_already_prod env config s test_data mv :
  assoc (st_frames s) (test_data_name config) = Some test_data ->
  find (matches (model_name config) "latest") (st_registry s) = Some mv ->
  str_in "prod" (mv_aliases mv) = true ->
  exists s',
    main env config s = (Raise already_prod, s')
    /\ st_frames s' = st_frames s
    /\ st_registry s' = st_registry s
    /\ st_trace s'
       = st_trace s
         ++ [WandbInit (project_name config) "test_and_promote_model"
               (experiment_name config);
             LoggerInfo "Load hold out test data.";
             LoggerInfo "Loading latest trained model."].
Proof.
  intros Hdata Hlatest Hprod.
  rewrite main_eq, Hdata, Hlatest. cbv zeta. rewrite Hprod.
  eexists. split; [reflexivity|]. repeat split.
Qed.

(** C5. The absence of a production model is absorbed: the run then
    returns what the single-model gate returns, its verdict or its error,
    and a verdict ends the run on the single-gate trace.  The absence of
    the test data, and the absence of the challenger, each end the run
    with the error of the load. *)
Theorem incumbent_absence_recovered env config s :
  (forall test_data mv,
     assoc (st_frames s) (test_data_name config) = Some test_data ->
     find (matches (model_name config) "latest") (st_registry s) = Some mv ->
     str_in "prod" (mv_aliases mv) = false ->
     find (matches (model_name config) "prod") (st_registry s) = None ->
     fst (main env config s)
     = evaluate_single env (mv_model mv) test_data (target_column config)
         (max_mae_to_promote config)
     /\ forall verdict,
          fst (main env config s) = Ok verdict ->
          exists info,
            snd (main env config s)
            = finish (load mv) s
                (single_stage config (load mv)
                 ++ status_events (mv_version mv) info verdict) verdict)
  /\ (assoc (st_frames s) (test_data_name config) = None ->
      main env config s
      = (Raise (ArtifactDoesNoteExistError (test_data_name config)),
         logged s (opening config)))
  /\ (forall test_data,
        assoc (st_frames s) (test_data_name config) = Some test_data ->
        find (matches (model_name config) "latest") (st_registry s) = None ->
        main env config s
        = (Raise (ArtifactDoesNoteExistError (model_name config)),
           logged s (loading config))).
Proof.
  split; [|split].
  - intros test_data mv Hdata Hlatest Hprod Hnone.
    rewrite main_eq, Hdata, Hlatest. cbv zeta. rewrite Hprod, Hnone.
    unfold evaluate_single.
    destruct (SingleModelTest.__init__ env (mv_model mv) test_data
                (target_column config) (max_mae_to_promote config))
      as [single|e]; simpl; [|split; [reflexivity|discriminate]].
    destruct (SingleModelTest.model_passes_tests single) as [v|e] eqn:Hpass;
      [|split; [reflexivity|discriminate]].
    destruct (passes_gives_message env _ _ Hpass) as [info Hmsg].
    rewrite Hmsg. split; [reflexivity|].
    intros verdict Hv. injection Hv as <-. exists info. reflexivity.
  - intros Hdata. rewrite main_eq, Hdata. reflexivity.
  - intros test_data Hdata Hlatest. rewrite main_eq, Hdata, Hlatest.
    reflexivity.
Qed.

(** C6. A run that completes sends exactly one alert: its level is
    [INFO] when the model is promoted and [WARN] when it is not, and its
    text is the message of the single-model gate, followed when there is
    an incumbent by the message of the challenger gate. *)
Theorem one_alert_per_completed_run env config s d s' :
  main env config s = (Ok d, s') ->
  exists title text,
    alerts_of (st_trace s')
    = alerts_of (st_trace s) ++ [WandbAlert title text (if d then INFO else WARN)]
    /\ exists test_data mv single info,
         assoc (st_frames s) (test_data_name config) = Some test_data
         /\ find (matches (model_name config) "latest") (st_registry s) = Some mv
         /\ SingleModelTest.__init__ env (mv_model mv) test_data
              (target_column config) (max_mae_to_promote config) = Ok single
         /\ SingleModelTest.message env single = Ok info
         /\ match find (matches (model_name config) "prod") (st_registry s) with
            | None => text = info
            | Some cur =>
                exists comparison,
                  ChallengerModelTest.__init__ env (mv_model mv) (mv_model cur)
                    test_data (target_column config) = Ok comparison
                  /\ text = (info ++ " "
                             ++ ChallengerModelTest.message env comparison)%string
            end.
Proof.
  intros Hrun.
  destruct (main_completed _ _ _ _ _ Hrun)
    as (test_data & mv & single & verdict & info
        & Hdata & Hlatest & Hprod & Hinit & Hpass & Hmsg & Hend).
  destruct (find (matches (model_name config) "prod") (st_registry s))
    as [cur|] eqn:Hcur.
  - destruct Hend as (comparison & Hcmp & Hd & ->).
    do 2 eexists. split.
    + rewrite finish_trace, !alerts_of_app, alerts_of_status.
      unfold challenger_stage, single_stage, loading, opening. simpl.
      reflexivity.
    + exists test_data, mv, single, info.
      do 4 (split; [assumption|]). exists comparison. split; [assumption|].
      reflexivity.
  - destruct Hend as (Hd & ->).
    do 2 eexists. split.
    + rewrite finish_trace, !alerts_of_app, alerts_of_status.
      unfold single_stage, loading, opening. simpl. reflexivity.
    + exists test_data, mv, single, info.
      do 4 (split; [assumption|]). reflexivity.
Qed.

(** C9. When the test data or the challenger cannot be loaded the run
    ends in the error of the load with the store as it was: the aliases of
    every model version are unchanged, no alert was sent and
    [run.use_artifact] was not called. *)
Theorem load_failure_no_side_effect env config s :
  assoc (st_frames s) (test_data_name config) = None
  \/ find (matches (model_name config) "latest") (st_registry s) = None ->
  exists e s',
    main env config s = (Raise e, s')
    /\ isinstance e "ArtifactDoesNoteExistError" = true
    /\ st_frames s' = st_frames s
    /\ st_registry s' = st_registry s
    /\ alerts_of (st_trace s') = alerts_of (st_trace s)
    /\ filter is_use_artifact (st_trace s') = filter is_use_artifact (st_trace s).
Proof.
  intros H. rewrite main_eq.
  destruct (assoc (st_frames s) (test_data_name config)) as [test_data|].
  - destruct H as [H|H]; [discriminate|]. rewrite H.
    do 2 eexists. split; [reflexivity|].
    unfold logged, loading, opening; simpl.
    rewrite alerts_of_app, filter_app; simpl. rewrite !app_nil_r.
    repeat split.
  - do 2 eexists. split; [reflexivity|].
    unfold logged, opening; simpl.
    rewrite alerts_of_app, filter_app; simpl. rewrite !app_nil_r.
    repeat split.
Qed.

(** ** The properties on the examples *)

Lemma single_gate_verdict_witness :
  SingleModelTest.__init__ spec_env (times 5) example_frame "y" 10
  = Ok example_single
  /\ exists verdict,
       SingleModelTest.model_passes_tests example_single = Ok verdict
       /\ evaluate_single spec_env (times 5) example_frame "y" 10 = Ok verdict
       /\ (verdict = true <->
           15 # 2 < 10
           /\ Forall (fun p => 0 < p) (predict (times 5) example_frame))
       /\ (10 <= 15 # 2 -> verdict = false)
       /\ (Exists (fun p => p <= 0) (predict (times 5) example_frame) ->
           verdict = false).
Proof.
  split; [reflexivity|].
  apply (single_gate_verdict spec_env (times 5) example_frame "y" 10
           example_single).
  - discriminate.
  - reflexivity.
Defined.

Lemma single_gate_empty_witness :
  exists e, evaluate_single spec_env (times 5) (frame []) "y" 10 = Raise e.
Proof.
  apply (single_gate_empty spec_env (times 5) (frame []) "y" 10).
  reflexivity.
Defined.

(** C8, as stated, fails on an empty frame with the columns [x] and [y],
    whether the evaluation returns on no data or refuses it: either way the
    gate ends in a [ValueError] of a library, the minimum of the empty
    predictions or the evaluation, and not in an [InsufficientDataError]. *)
Lemma empty_test_set_counterexample :
  evaluate_single spec_env (times 5) (frame []) "y" 10 = Raise zero_size_min
  /\ evaluate_single strict_env (times 5) (frame []) "y" 10
     = Raise (ValueError
         "Found array with 0 sample(s) while a minimum of 1 is required.")
  /\ ~ (exists msg,
          evaluate_single spec_env (times 5) (frame []) "y" 10
          = Raise (Exception "InsufficientDataError" msg))
  /\ ~ (exists msg,
          evaluate_single strict_env (times 5) (frame []) "y" 10
          = Raise (Exception "InsufficientDataError" msg)).
Proof.
  split; [reflexivity|]. split; [reflexivity|].
  split; intros [msg H]; discriminate H.
Qed.

Lemma challenger_gate_verdict_witness :
  ChallengerModelTest.__init__ spec_env (times 5) (times 4) example_frame "y"
  = Ok example_comparison
  /\ (ChallengerModelTest.challenger_model_is_better example_comparison = true
      <-> 15 # 2 < 18 # 2)
  /\ (15 # 2 == 18 # 2 ->
      ChallengerModelTest.challenger_model_is_better example_comparison = false).
Proof.
  split; [reflexivity|].
  apply (challenger_gate_verdict spec_env (times 5) (times 4) example_frame "y"
           example_comparison).
  reflexivity.
Defined.

Lemma challenger_message_tie_witness :
  ChallengerModelTest.__init__ spec_env (times 15) (times 5) example_frame "y"
  = Ok example_tie
  /\ ChallengerModelTest.message spec_env example_tie
     = "Challenger model has MAE of 15/2, which is worse than the current models performance of 15/2.".
Proof.
  split; [reflexivity|].
  apply (proj2 (challenger_message_tie spec_env example_tie)).
  reflexivity.
Defined.

Lemma promotion_decision_witness :
  fst (main spec_env example_config store_fresh) = Ok true
  /\ fst (main spec_env example_config store_incumbent) = Ok (true && true).
Proof.
  split.
  - apply (promotion_decision spec_env example_config store_fresh
             example_frame version_1 example_single true);
      reflexivity.
  - apply (promotion_decision spec_env example_config store_incumbent
             example_frame version_1 example_single true
             eq_refl eq_refl eq_refl eq_refl eq_refl
             example_comparison eq_refl).
Defined.

Lemma challenger_already_prod_witness :
  exists s',
    main spec_env example_config store_already_prod = (Raise already_prod, s')
    /\ st_frames s' = [("test_data", frame [])]
    /\ st_registry s' = [version_1_prod]
    /\ st_trace s'
       = [WandbInit "mlops" "test_and_promote_model" "batch";
          LoggerInfo "Load hold out test data.";
          LoggerInfo "Loading latest trained model."].
Proof.
  apply (challenger_already_prod spec_env example_config store_already_prod
           (frame []) version_1_prod); reflexivity.
Defined.

Lemma incumbent_absence_recovered_witness :
  fst (main spec_env example_config store_fresh)
  = evaluate_single spec_env (times 5) example_frame "y" 10
  /\ main spec_env example_config store_no_data
     = (Raise (ArtifactDoesNoteExistError "test_data"),
        logged store_no_data (opening example_config))
  /\ main spec_env example_config store_no_model
     = (Raise (ArtifactDoesNoteExistError "model"),
        logged store_no_model (loading example_config)).
Proof.
  split; [|split].
  - apply (proj1 (incumbent_absence_recovered spec_env example_config
                    store_fresh) example_frame version_1); reflexivity.
  - apply (proj1 (proj2 (incumbent_absence_recovered spec_env example_config
                           store_no_data))); reflexivity.
  - apply (proj2 (proj2 (incumbent_absence_recovered spec_env example_config
                           store_no_model)) example_frame); reflexivity.
Defined.

Lemma one_alert_per_completed_run_witness :
  exists title text,
    alerts_of (st_trace (snd (main spec_env example_config store_incumbent)))
    = [] ++ [WandbAlert title text INFO].
Proof.
  destruct (one_alert_per_completed_run spec_env example_config store_incumbent
              true (snd (main spec_env example_config store_incumbent))
              eq_refl) as (title & text & H & _).
  exists title, text. exact H.
Defined.

Lemma load_failure_no_side_effect_witness :
  exists e s',
    main spec_env example_config store_no_data = (Raise e, s')
    /\ isinstance e "ArtifactDoesNoteExistError" = true
    /\ st_frames s' = []
    /\ st_registry s' = [version_0; version_1]
    /\ alerts_of (st_trace s') = []
    /\ filter is_use_artifact (st_trace s') = [].
Proof.
  apply (load_failure_no_side_effect spec_env example_config store_no_data).
  left. reflexivity.
Defined.

(** * Further properties of [promote_model.py] *)

(** ** The two test classes *)

Lemma Qltb_irrefl (x : Q) : Qltb x x = false.
Proof. apply Qltb_ge. apply Qle_refl. Qed.

Lemma append_cancel (p a b : string) : (p ++ a = p ++ b)%string -> a = b.
Proof.
  induction p as [|ch p IH]; simpl; intros H; [exact H|].
  injection H as H. exact (IH H).
Qed.

(** X1. The verdict and the message of a test object stand or fall
    together: both raise, with the same error, exactly when there is no
    prediction, and both return otherwise. *)
Theorem single_verdict_message_agree env self :
  (SingleModelTest.predictions self = [] <->
   SingleModelTest.model_passes_tests self = Raise zero_size_min)
  /\ (forall e,
        SingleModelTest.model_passes_tests self = Raise e <->
        SingleModelTest.message env self = Raise e)
  /\ ((exists verdict, SingleModelTest.model_passes_tests self = Ok verdict) <->
      (exists info, SingleModelTest.message env self = Ok info)).
Proof.
  unfold SingleModelTest.model_passes_tests, SingleModelTest.message,
    SingleModelTest._predictions_all_positive.
  destruct (SingleModelTest.predictions self) as [|p ps]; simpl.
  - split; [split; reflexivity|].
    split; [intros e; split; intros H; injection H as <-; reflexivity|].
    split; intros [x H]; discriminate H.
  - split; [split; discriminate|].
    split; [intros e; split; discriminate|].
    split; intros _; eexists; reflexivity.
Qed.

(** X2. Raising the threshold never turns a pass into a fail: a model
    that passes the single-model gate under [max_mae] passes it, on the
    same data, under every larger threshold. *)
Theorem single_gate_threshold_monotone env model test_data target_col
    max_mae max_mae' self :
  max_mae <= max_mae' ->
  SingleModelTest.__init__ env model test_data target_col max_mae = Ok self ->
  SingleModelTest.model_passes_tests self = Ok true ->
  exists self',
    SingleModelTest.__init__ env model test_data target_col max_mae' = Ok self'
    /\ SingleModelTest.model_mae self' = SingleModelTest.model_mae self
    /\ SingleModelTest.model_passes_tests self' = Ok true.
Proof.
  intros Hle. unfold SingleModelTest.__init__.
  destruct (SingleModelTest._calc_model_mae env (predict model test_data)
              test_data target_col) as [mae|e]; simpl; [|discriminate].
  intros H. injection H as <-. intros Hpass.
  eexists. split; [reflexivity|]. split; [reflexivity|].
  revert Hpass.
  unfold SingleModelTest.model_passes_tests,
    SingleModelTest._predictions_all_positive,
    SingleModelTest._model_has_ok_mae. simpl.
  destruct (ndarray_min (predict model test_data)) as [m|e]; simpl;
    [|discriminate].
  intros H. injection H as H. apply andb_true_iff in H. destruct H as [Hm Hp].
  f_equal. apply andb_true_iff. split; [|exact Hp].
  apply Qltb_lt. apply Qltb_lt in Hm. exact (Qlt_le_trans _ _ _ Hm Hle).
Qed.

(** X3. With at least one prediction the message is always
    "The model has MAE of m, which is under the max threshold of t. E.",
    whatever the order of m and t, and E says that the model passes all
    edge cases exactly when every prediction is strictly positive. *)
Theorem single_message_format env self :
  SingleModelTest.predictions self <> [] ->
  exists positive : bool,
    SingleModelTest.message env self
    = Ok ("The model has MAE of " ++ str env (SingleModelTest.model_mae self)
          ++ ", which is under the max threshold of "
          ++ str env (SingleModelTest.max_mae self) ++ ". "
          ++ (if positive then "The model passes all edge cases"
              else "The model does not pass all edge cases") ++ ".")%string
    /\ (positive = true <->
        Forall (fun p => 0 < p) (SingleModelTest.predictions self)).
Proof.
  intros Hne. destruct (ndarray_min_nonempty _ Hne) as [m Hm].
  exists (Qltb 0 m). split.
  - apply single_message_value.
    unfold SingleModelTest._predictions_all_positive. rewrite Hm. reflexivity.
  - rewrite Qltb_lt. apply ndarray_min_positive. exact Hm.
Qed.

(** X4. The message of the challenger gate calls the challenger better
    exactly when its MAE is strictly below the incumbent's, and worse
    exactly when it is not. *)
Theorem challenger_message_wording env self :
  let c := ChallengerModelTest.model_challenger_mae self in
  let i := ChallengerModelTest.model_current_mae self in
  (ChallengerModelTest.message env self
   = ("Challenger model has MAE of " ++ str env c
      ++ ", which is better than the current models performance of "
      ++ str env i ++ ".")%string
   <-> c < i)
  /\ (ChallengerModelTest.message env self
      = ("Challenger model has MAE of " ++ str env c
         ++ ", which is worse than the current models performance of "
         ++ str env i ++ ".")%string
      <-> i <= c).
Proof.
  intros c i. unfold ChallengerModelTest.message.
  fold c. fold i. rewrite <- Qltb_lt, <- Qltb_ge.
  unfold ChallengerModelTest.challenger_model_is_better. fold c. fold i.
  destruct (Qltb c i); rewrite !append_assoc.
  - split; [split; reflexivity|]. split; [|discriminate].
    intros H. apply append_cancel in H. apply append_cancel in H.
    simpl in H. discriminate H.
  - split; [|split; reflexivity]. split; [|discriminate].
    intros H. apply append_cancel in H. apply append_cancel in H.
    simpl in H. discriminate H.
Qed.

Lemma same_model_same_mae env model test_data target_col self :
  ChallengerModelTest.__init__ env model model test_data target_col = Ok self ->
  ChallengerModelTest.model_challenger_mae self
  = ChallengerModelTest.model_current_mae self.
Proof.
  intros Hinit.
  destruct (challenger_init_fields _ _ _ _ _ _ Hinit) as [Hc Hi].
  rewrite Hc in Hi. injection Hi as Heq. exact Heq.
Qed.

(** X5. A model compared with itself is never better: when challenger
    and incumbent are the same pipeline the two MAEs are equal and the
    challenger gate fails. *)
Theorem same_model_never_better env model test_data target_col self :
  ChallengerModelTest.__init__ env model model test_data target_col = Ok self ->
  ChallengerModelTest.challenger_model_is_better self = false
  /\ ChallengerModelTest.model_challenger_mae self
     = ChallengerModelTest.model_current_mae self.
Proof.
  intros Hinit. pose proof (same_model_same_mae _ _ _ _ _ Hinit) as Heq.
  split; [|exact Heq].
  unfold ChallengerModelTest.challenger_model_is_better. rewrite Heq.
  apply Qltb_irrefl.
Qed.

(** X6. Of two models compared on the same data in both orders, at most
    one is better than the other. *)
Theorem challenger_gate_asymmetric env a b test_data target_col ab ba :
  ChallengerModelTest.__init__ env a b test_data target_col = Ok ab ->
  ChallengerModelTest.__init__ env b a test_data target_col = Ok ba ->
  ChallengerModelTest.challenger_model_is_better ab = true ->
  ChallengerModelTest.challenger_model_is_better ba = false.
Proof.
  intros Hab Hba.
  destruct (challenger_init_fields _ _ _ _ _ _ Hab) as [Ha Hb].
  destruct (challenger_init_fields _ _ _ _ _ _ Hba) as [Hb' Ha'].
  rewrite Ha in Ha'. injection Ha' as Ea.
  rewrite Hb in Hb'. injection Hb' as Eb.
  unfold ChallengerModelTest.challenger_model_is_better.
  rewrite <- Ea, <- Eb, Qltb_lt, Qltb_ge. apply Qlt_le_weak.
Qed.

(** ** The run *)

Lemma missing_column_init env model test_data target_col max_mae :
  ~ In target_col (df_columns test_data) ->
  SingleModelTest.__init__ env model test_data target_col max_mae
  = Raise (KeyError target_col).
Proof.
  intros Hn.
  unfold SingleModelTest.__init__, SingleModelTest._calc_model_mae, df_getitem.
  destruct (in_dec string_dec target_col (df_columns test_data));
    [contradiction|reflexivity].
Qed.

Lemma alerts_of_logged s evs :
  alerts_of evs = [] ->
  alerts_of (st_trace (logged s evs)) = alerts_of (st_trace s).
Proof.
  intros H. unfold logged. cbn [st_trace].
  rewrite alerts_of_app, H. apply app_nil_r.
Qed.

Lemma message_raise_no_verdict env self e verdict :
  SingleModelTest.message env self = Raise e ->
  SingleModelTest.model_passes_tests self = Ok verdict -> False.
Proof.
  intros Hmsg Hpass. destruct (passes_gives_message env _ _ Hpass) as [i Hi].
  congruence.
Qed.

(** X7. Nothing is promoted without a positive decision: whatever the
    outcome of a run the data frames of the store are untouched, the
    registered versions and their aliases are unchanged unless the run
    returns the decision [True], and in that case the registry is the old
    one with the production alias moved to the challenger. *)
Theorem no_promotion_without_decision env config s r s' :
  main env config s = (r, s') ->
  st_frames s' = st_frames s
  /\ (r <> Ok true -> st_registry s' = st_registry s)
  /\ (r = Ok true ->
      exists mv,
        find (matches (model_name config) "latest") (st_registry s) = Some mv
        /\ st_registry s' = map (retag (load mv)) (st_registry s)).
Proof.
  rewrite main_eq.
  destruct (assoc (st_frames s) (test_data_name config)) as [test_data|];
    [|intros H; injection H as <- <-; repeat split; discriminate].
  destruct (find (matches (model_name config) "latest") (st_registry s))
    as [mv|]; [|intros H; injection H as <- <-; repeat split; discriminate].
  cbv zeta.
  destruct (str_in "prod" (mv_aliases mv));
    [intros H; injection H as <- <-; repeat split; discriminate|].
  destruct (SingleModelTest.__init__ env (mv_model mv) test_data
              (target_column config) (max_mae_to_promote config))
    as [single|e]; [|intros H; injection H as <- <-; repeat split; discriminate].
  assert (Hfin : forall evs (v : bool),
            st_frames (finish (load mv) s evs v) = st_frames s
            /\ (Ok v <> Ok true ->
                st_registry (finish (load mv) s evs v) = st_registry s)
            /\ (Ok v = Ok true ->
                exists mv0, Some mv = Some mv0
                  /\ st_registry (finish (load mv) s evs v)
                     = map (retag (load mv0)) (st_registry s))).
  { intros evs [|]; (split; [reflexivity|]); split.
    - intros H. contradiction H. reflexivity.
    - intros _. exists mv. split; reflexivity.
    - intros _. reflexivity.
    - discriminate. }
  destruct (find (matches (model_name config) "prod") (st_registry s))
    as [cur|].
  - destruct (ChallengerModelTest.__init__ env (mv_model mv) (mv_model cur)
                test_data (target_column config)) as [comparison|e];
      [|intros H; injection H as <- <-; repeat split; discriminate].
    destruct (SingleModelTest.model_passes_tests single) as [passes|e]
      eqn:Hpass;
      [|intros H; injection H as <- <-; repeat split; discriminate].
    destruct (SingleModelTest.message env single) as [info|e] eqn:Hmsg.
    + intros H. injection H as <- <-. apply Hfin.
    + destruct (message_raise_no_verdict _ _ _ _ Hmsg Hpass).
  - destruct (SingleModelTest.model_passes_tests single) as [v|e] eqn:Hpass;
      [|intros H; injection H as <- <-; repeat split; discriminate].
    destruct (SingleModelTest.message env single) as [info|e] eqn:Hmsg.
    + intros H. injection H as <- <-. apply Hfin.
    + destruct (message_raise_no_verdict _ _ _ _ Hmsg Hpass).
Qed.

(** X8. When the test data has no column of the configured target name
    the run raises [KeyError] on that name, with or without an incumbent:
    nothing is promoted and no alert is sent, but the challenger has
    already been marked as used by the run. *)
Theorem missing_target_column env config s test_data mv :
  assoc (st_frames s) (test_data_name config) = Some test_data ->
  find (matches (model_name config) "latest") (st_registry s) = Some mv ->
  str_in "prod" (mv_aliases mv) = false ->
  ~ In (target_column config) (df_columns test_data) ->
  exists s',
    main env config s = (Raise (KeyError (target_column config)), s')
    /\ st_registry s' = st_registry s
    /\ alerts_of (st_trace s') = alerts_of (st_trace s)
    /\ filter is_use_artifact (st_trace s')
       = filter is_use_artifact (st_trace s)
         ++ [UseArtifact (mv_name mv) (mv_aliases mv)].
Proof.
  intros Hdata Hlatest Hprod Hcol.
  rewrite main_eq, Hdata, Hlatest. cbv zeta.
  rewrite Hprod, (missing_column_init env _ _ _ _ Hcol).
  eexists. split; [reflexivity|]. split; [reflexivity|]. split.
  - apply alerts_of_logged. reflexivity.
  - unfold logged. cbn [st_trace]. rewrite filter_app. reflexivity.
Qed.

(** X9. A run on an empty test set never promotes and never alerts: it
    ends in an error, whatever the models and the evaluation. *)
Theorem empty_test_data_aborts env config s test_data :
  assoc (st_frames s) (test_data_name config) = Some test_data ->
  df_rows test_data = [] ->
  exists e s',
    main env config s = (Raise e, s')
    /\ st_registry s' = st_registry s
    /\ alerts_of (st_trace s') = alerts_of (st_trace s).
Proof.
  intros Hdata Hrows. rewrite main_eq, Hdata.
  destruct (find (matches (model_name config) "latest") (st_registry s))
    as [mv|];
    [|do 2 eexists; split; [reflexivity|]; split;
      [reflexivity|apply alerts_of_logged; reflexivity]].
  cbv zeta.
  destruct (str_in "prod" (mv_aliases mv));
    [do 2 eexists; split; [reflexivity|]; split;
     [reflexivity|apply alerts_of_logged; reflexivity]|].
  destruct (SingleModelTest.__init__ env (mv_model mv) test_data
              (target_column config) (max_mae_to_promote config))
    as [single|e] eqn:Hinit;
    [|do 2 eexists; split; [reflexivity|]; split;
      [reflexivity|apply alerts_of_logged; reflexivity]].
  assert (Hpass : SingleModelTest.model_passes_tests single
                  = Raise zero_size_min).
  { apply (empty_predictions_raise env).
    destruct (single_init_fields _ _ _ _ _ _ Hinit) as (-> & _).
    unfold predict. rewrite Hrows. reflexivity. }
  rewrite Hpass.
  destruct (find (matches (model_name config) "prod") (st_registry s))
    as [cur|].
  - cbv zeta.
    destruct (ChallengerModelTest.__init__ env (mv_model mv) (mv_model cur)
                test_data (target_column config));
      do 2 eexists; (split; [reflexivity|]); split;
      try reflexivity; apply alerts_of_logged; reflexivity.
  - do 2 eexists. split; [reflexivity|]. split;
      [reflexivity|apply alerts_of_logged; reflexivity].
Qed.

(** X10. In a run that completes, the log line and the alert say the
    same thing: the last two events are a log line, at level info when the
    model is promoted and warning when it is not, and the alert; the title
    of the alert names the version of the challenger, and the log line is
    that title, a space and the text of the alert.  Nothing before them
    is an alert. *)
Theorem log_and_alert_agree env config s d s' :
  main env config s = (Ok d, s') ->
  exists mv evs text,
    find (matches (model_name config) "latest") (st_registry s) = Some mv
    /\ alerts_of evs = []
    /\ let title :=
         (if d
          then "Trained model version " ++ mv_version mv ++ " promoted."
          else "Trained model with version " ++ mv_version mv
               ++ " not promoted.")%string in
       st_trace s'
       = st_trace s ++ evs
         ++ [(if d then LoggerInfo else LoggerWarning)
               (title ++ " " ++ text)%string;
             WandbAlert title text (if d then INFO else WARN)].
Proof.
  intros Hrun.
  destruct (main_completed _ _ _ _ _ Hrun)
    as (test_data & mv & single & verdict & info
        & Hdata & Hlatest & Hprod & Hinit & Hpass & Hmsg & Hend).
  exists mv.
  destruct (find (matches (model_name config) "prod") (st_registry s))
    as [cur|].
  - destruct Hend as (comparison & Hcmp & Hd & ->).
    exists (challenger_stage config (load mv) (load cur)).
    eexists. split; [exact Hlatest|]. split; [reflexivity|].
    rewrite finish_trace. destruct d; reflexivity.
  - destruct Hend as (Hd & ->).
    exists (single_stage config (load mv)).
    eexists. split; [exact Hlatest|]. split; [reflexivity|].
    rewrite finish_trace. destruct d; reflexivity.
Qed.

(** X11. In a run that completes, [main] itself calls
    [run.use_artifact] on the challenger and then, when there is one, on
    the incumbent, and on nothing else.  The trace records these calls of
    lines 165 and 187 only: what the helper that reads the test data does
    with the run it is handed is not part of it. *)
Theorem used_artifacts_of_completed_run env config s d s' :
  main env config s = (Ok d, s') ->
  exists mv,
    find (matches (model_name config) "latest") (st_registry s) = Some mv
    /\ filter is_use_artifact (st_trace s')
       = filter is_use_artifact (st_trace s)
         ++ UseArtifact (mv_name mv) (mv_aliases mv)
            :: match find (matches (model_name config) "prod")
                       (st_registry s) with
               | None => []
               | Some cur => [UseArtifact (mv_name cur) (mv_aliases cur)]
               end.
Proof.
  intros Hrun.
  destruct (main_completed _ _ _ _ _ Hrun)
    as (test_data & mv & single & verdict & info
        & Hdata & Hlatest & Hprod & Hinit & Hpass & Hmsg & Hend).
  exists mv. split; [exact Hlatest|].
  destruct (find (matches (model_name config) "prod") (st_registry s))
    as [cur|].
  - destruct Hend as (comparison & Hcmp & Hd & ->).
    rewrite finish_trace, !filter_app. destruct d; reflexivity.
  - destruct Hend as (Hd & ->).
    rewrite finish_trace, !filter_app. destruct d; reflexivity.
Qed.

(** X12. A challenger that is the same pipeline as the production model
    is never promoted: the run completes with the decision [False] and
    leaves the registry as it was. *)
Theorem identical_incumbent_not_promoted env config s d s' mv cur :
  main env config s = (Ok d, s') ->
  find (matches (model_name config) "latest") (st_registry s) = Some mv ->
  find (matches (model_name config) "prod") (st_registry s) = Some cur ->
  mv_model cur = mv_model mv ->
  d = false /\ st_registry s' = st_registry s.
Proof.
  intros Hrun Hlatest Hcur Hsame.
  destruct (main_completed _ _ _ _ _ Hrun)
    as (test_data & mv0 & single & verdict & info
        & Hdata & Hlatest0 & Hprod & Hinit & Hpass & Hmsg & Hend).
  rewrite Hlatest in Hlatest0. injection Hlatest0 as <-.
  rewrite Hcur in Hend. destruct Hend as (comparison & Hcmp & Hd & ->).
  rewrite Hsame in Hcmp.
  assert (Hfalse : d = false).
  { rewrite Hd. destruct verdict; [|reflexivity].
    unfold ChallengerModelTest.challenger_model_is_better.
    rewrite (same_model_same_mae _ _ _ _ _ Hcmp). apply Qltb_irrefl. }
  split; [exact Hfalse|]. rewrite Hfalse. reflexivity.
Qed.

(** ** The further properties on the examples *)

Lemma single_gate_threshold_monotone_witness :
  exists self',
    SingleModelTest.__init__ spec_env (times 5) example_frame "y" 20 = Ok self'
    /\ SingleModelTest.model_mae self' = 15 # 2
    /\ SingleModelTest.model_passes_tests self' = Ok true.
Proof.
  apply (single_gate_threshold_monotone spec_env (times 5) example_frame "y"
           10 20 example_single).
  - discriminate.
  - reflexivity.
  - reflexivity.
Defined.

Lemma single_message_format_witness :
  exists positive : bool,
    SingleModelTest.message spec_env example_single
    = Ok ("The model has MAE of " ++ "15/2"
          ++ ", which is under the max threshold of " ++ "10" ++ ". "
          ++ (if positive then "The model passes all edge cases"
              else "The model does not pass all edge cases") ++ ".")%string
    /\ (positive = true <-> Forall (fun p => 0 < p) [5; 10]).
Proof.
  apply (single_message_format spec_env example_single). discriminate.
Defined.

Lemma same_model_never_better_witness :
  ChallengerModelTest.challenger_model_is_better
    {| ChallengerModelTest.model_challenger := times 5;
       ChallengerModelTest.model_current := times 5;
       ChallengerModelTest.test_data := example_frame;
       ChallengerModelTest.target_col := "y";
       ChallengerModelTest.model_challenger_mae := 15 # 2;
       ChallengerModelTest.model_current_mae := 15 # 2 |} = false
  /\ 15 # 2 = 15 # 2.
Proof.
  apply (same_model_never_better spec_env (times 5) example_frame "y").
  reflexivity.
Defined.

Lemma challenger_gate_asymmetric_witness :
  ChallengerModelTest.challenger_model_is_better
    {| ChallengerModelTest.model_challenger := times 4;
       ChallengerModelTest.model_current := times 5;
       ChallengerModelTest.test_data := example_frame;
       ChallengerModelTest.target_col := "y";
       ChallengerModelTest.model_challenger_mae := 18 # 2;
       ChallengerModelTest.model_current_mae := 15 # 2 |} = false.
Proof.
  apply (challenger_gate_asymmetric spec_env (times 5) (times 4) example_frame
           "y" example_comparison); reflexivity.
Defined.

Lemma no_promotion_without_decision_witness :
  st_registry (snd (main spec_env example_config store_same_pipeline))
  = st_registry store_same_pipeline.
Proof.
  apply (no_promotion_without_decision spec_env example_config
           store_same_pipeline (Ok false)
           (snd (main spec_env example_config store_same_pipeline)) eq_refl).
  discriminate.
Defined.

Lemma missing_target_column_witness :
  exists s',
    main spec_env
      {| project_name := "mlops"; experiment_name := "batch";
         test_data_name := "test_data"; model_name := "model";
         target_column := "median_house_price"; max_mae_to_promote := 10 |}
      store_incumbent
    = (Raise (KeyError "median_house_price"), s')
    /\ st_registry s' = st_registry store_incumbent
    /\ alerts_of (st_trace s') = []
    /\ filter is_use_artifact (st_trace s') = [UseArtifact "model" ["latest"]].
Proof.
  apply (missing_target_column spec_env
           {| project_name := "mlops"; experiment_name := "batch";
              test_data_name := "test_data"; model_name := "model";
              target_column := "median_house_price";
              max_mae_to_promote := 10 |}
           store_incumbent example_frame version_1);
    try reflexivity.
  simpl. intros [H|[H|[]]]; discriminate H.
Defined.

Lemma empty_test_data_aborts_witness :
  exists e s',
    main spec_env example_config
      (store [("test_data", frame [])] [version_0; version_1])
    = (Raise e, s')
    /\ st_registry s' = [version_0; version_1]
    /\ alerts_of (st_trace s') = [].
Proof.
  apply (empty_test_data_aborts spec_env example_config
           (store [("test_data", frame [])] [version_0; version_1])
           (frame [])); reflexivity.
Defined.

Lemma log_and_alert_agree_witness :
  exists mv evs text,
    find (matches "model" "latest") (st_registry store_same_pipeline) = Some mv
    /\ alerts_of evs = []
    /\ st_trace (snd (main spec_env example_config store_same_pipeline))
       = [] ++ evs
         ++ [LoggerWarning
               (("Trained model with version " ++ mv_version mv
                 ++ " not promoted.") ++ " " ++ text)%string;
             WandbAlert
               ("Trained model with version " ++ mv_version mv
                ++ " not promoted.")%string text WARN].
Proof.
  apply (log_and_alert_agree spec_env example_config store_same_pipeline false
           (snd (main spec_env example_config store_same_pipeline)) eq_refl).
Defined.

Lemma used_artifacts_of_completed_run_witness :
  exists mv,
    find (matches "model" "latest") (st_registry store_incumbent) = Some mv
    /\ filter is_use_artifact
         (st_trace (snd (main spec_env example_config store_incumbent)))
       = [] ++ [UseArtifact (mv_name mv) (mv_aliases mv);
                UseArtifact "model" ["prod"]].
Proof.
  apply (used_artifacts_of_completed_run spec_env example_config
           store_incumbent true
           (snd (main spec_env example_config store_incumbent)) eq_refl).
Defined.

Lemma identical_incumbent_not_promoted_witness :
  false = false
  /\ st_registry (snd (main spec_env example_config store_same_pipeline))
     = st_registry store_same_pipeline.
Proof.
  apply (identical_incumbent_not_promoted spec_env example_config
           store_same_pipeline false
           (snd (main spec_env example_config store_same_pipeline))
           version_1
           {| mv_name := "model"; mv_version := "v0"; mv_aliases := ["prod"];
              mv_model := times 5 |});
    reflexivity.
Defined.

(** * Properties of [feature_drift_detection.py] *)

Ltac drift_unfold :=
  unfold FeatureDriftDetection.main,
    FeatureDriftDetection.get_model_training_data,
    FeatureDriftDetection.with_TemporaryDirectory,
    FeatureDriftDetection.try_except, FeatureDriftDetection.api_artifact,
    FeatureDriftDetection.read_dataframe_artifact,
    FeatureDriftDetection.write_file, FeatureDriftDetection.log_file,
    FeatureDriftDetection.run_get_url, FeatureDriftDetection.wandb_init,
    FeatureDriftDetection.logger_info, FeatureDriftDetection.logger_warning,
    FeatureDriftDetection.emit, FeatureDriftDetection.raise,
    FeatureDriftDetection.lift, FeatureDriftDetection.ret,
    FeatureDriftDetection.bind,
    FeatureDriftDetection.data_drift_report_file_name,
    FeatureDriftDetection.data_drift_profile_file_name.

Lemma prefix_append (d a b : string) :
  String.prefix (d ++ a) (d ++ b) = String.prefix a b.
Proof.
  induction d as [|c d IH]; simpl; [reflexivity|].
  destruct (Ascii.ascii_dec c c) as [_|Hn]; [exact IH|contradiction Hn; reflexivity].
Qed.

Lemma sibling_not_inside (tmpdirname file : string) :
  String.prefix "/" file = false ->
  is_inside tmpdirname (tmpdirname ++ file) = false.
Proof.
  intros H. unfold is_inside. rewrite prefix_append. exact H.
Qed.

(** X13. The files that the scripts mean to put in a temporary
    directory are not inside it: the directory name and the file name are
    joined without a separator, so for every directory name the drift
    report, the drift profile and the pickled model lie beside the
    directory, not under it. *)
Theorem files_beside_temporary_directory (tmpdirname : string) :
  is_inside tmpdirname
    (FeatureDriftDetection.data_drift_report_file_name tmpdirname) = false
  /\ is_inside tmpdirname
       (FeatureDriftDetection.data_drift_profile_file_name tmpdirname) = false
  /\ is_inside tmpdirname (model_pickle_file_name tmpdirname) = false.
Proof.
  repeat split; apply sibling_not_inside; reflexivity.
Qed.

(** X14. When the API cannot give the model version the run stops right
    after [wandb.init], with nothing logged and nothing written: an error
    that is an instance of [CommError], of the class itself or of a
    subclass, is turned into a [ValueError] whose message is
    "Trained model version does not exist. From WANDB: " followed by the
    message of that error; an error that is no instance of [CommError] is
    passed on as it is. *)
Theorem drift_model_version_missing evidently config w e :
  FeatureDriftDetection.w_api w (model_path config) = Raise e ->
  FeatureDriftDetection.main evidently config w
  = (Raise (if FeatureDriftDetection.w_is_comm_error w e
            then ValueError
                   ("Trained model version does not exist. From WANDB: "
                    ++ exn_msg e)%string
            else e),
     traced w [FeatureDriftDetection.WandbInit
                 (FeatureDriftDetection.project_name config) "drift_detection"
                 (FeatureDriftDetection.experiment_name config)]).
Proof.
  intros H. unfold model_path in H. unfold traced.
  drift_unfold. simpl. simpl in H. rewrite H.
  destruct (FeatureDriftDetection.w_is_comm_error w e); reflexivity.
Qed.

(** X15. When the run that logged the model used no artifact, the
    lookup of its first used artifact raises [IndexError] and the run
    stops right after [wandb.init], with nothing logged and nothing
    written. *)
Theorem drift_training_run_without_inputs evidently config w artifact run :
  FeatureDriftDetection.w_api w (model_path config) = Ok artifact ->
  FeatureDriftDetection.logged_by artifact = Some run ->
  FeatureDriftDetection.used_artifacts run = [] ->
  FeatureDriftDetection.main evidently config w
  = (Raise (Exception "IndexError" "list index out of range"),
     traced w [FeatureDriftDetection.WandbInit
                 (FeatureDriftDetection.project_name config) "drift_detection"
                 (FeatureDriftDetection.experiment_name config)]).
Proof.
  intros Hapi Hrun Hused. unfold model_path in Hapi. unfold traced.
  drift_unfold. simpl. simpl in Hapi. rewrite Hapi, Hrun. simpl.
  rewrite Hused. reflexivity.
Qed.

Lemma world_eq (w1 w2 : FeatureDriftDetection.World) :
  FeatureDriftDetection.w_api w1 = FeatureDriftDetection.w_api w2 ->
  FeatureDriftDetection.w_is_comm_error w1
  = FeatureDriftDetection.w_is_comm_error w2 ->
  FeatureDriftDetection.w_frames w1 = FeatureDriftDetection.w_frames w2 ->
  FeatureDriftDetection.w_run_url w1 = FeatureDriftDetection.w_run_url w2 ->
  FeatureDriftDetection.w_mkdtemp w1 = FeatureDriftDetection.w_mkdtemp w2 ->
  FeatureDriftDetection.w_tmp_count w1 = FeatureDriftDetection.w_tmp_count w2 ->
  FeatureDriftDetection.w_files w1 = FeatureDriftDetection.w_files w2 ->
  FeatureDriftDetection.w_trace w1 = FeatureDriftDetection.w_trace w2 ->
  w1 = w2.
Proof.
  destruct w1, w2; simpl; intros; subst; reflexivity.
Qed.

(** A drift run whose lookups and computations succeed, step by step. *)
Lemma drift_main_run evidently config w artifact run name rest training
    inference html profile :
  FeatureDriftDetection.w_api w (model_path config) = Ok artifact ->
  FeatureDriftDetection.logged_by artifact = Some run ->
  FeatureDriftDetection.used_artifacts run = name :: rest ->
  assoc (FeatureDriftDetection.w_frames w) name = Some training ->
  assoc (FeatureDriftDetection.w_frames w)
    (FeatureDriftDetection.model_input_name config ++ ":"
     ++ FeatureDriftDetection.model_input_version config)%string
  = Some inference ->
  FeatureDriftDetection.dashboard_calculate evidently training inference
  = Ok html ->
  FeatureDriftDetection.profile_calculate evidently training inference
  = Ok profile ->
  let count := FeatureDriftDetection.w_tmp_count w in
  let tmp_report := FeatureDriftDetection.w_mkdtemp w count in
  let tmp_profile := FeatureDriftDetection.w_mkdtemp w (S count) in
  FeatureDriftDetection.main evidently config w
  = (Ok tt,
     {| FeatureDriftDetection.w_api := FeatureDriftDetection.w_api w;
        FeatureDriftDetection.w_is_comm_error :=
          FeatureDriftDetection.w_is_comm_error w;
        FeatureDriftDetection.w_frames := FeatureDriftDetection.w_frames w;
        FeatureDriftDetection.w_run_url := FeatureDriftDetection.w_run_url w;
        FeatureDriftDetection.w_mkdtemp := FeatureDriftDetection.w_mkdtemp w;
        FeatureDriftDetection.w_tmp_count := S (S count);
        FeatureDriftDetection.w_files :=
          filter (fun f => negb (is_inside tmp_profile (fst f)))
            ((FeatureDriftDetection.data_drift_profile_file_name tmp_profile,
              FeatureDriftDetection.json profile)
             :: filter (fun f => negb (is_inside tmp_report (fst f)))
                  ((FeatureDriftDetection.data_drift_report_file_name tmp_report,
                    html)
                   :: FeatureDriftDetection.w_files w));
        FeatureDriftDetection.w_trace :=
          FeatureDriftDetection.w_trace w
          ++ drift_trace config tmp_report tmp_profile
               (FeatureDriftDetection.n_drifted_features profile)
               (FeatureDriftDetection.w_run_url w) |}).
Proof.
  intros Hapi Hrun Hused Htrain Hinput Hhtml Hprofile count tmp_report
    tmp_profile.
  unfold model_path in Hapi. unfold drift_trace.
  drift_unfold. simpl. simpl in Hapi. simpl in Hinput.
  rewrite Hapi, Hrun. simpl. rewrite Hused. simpl.
  rewrite Htrain. simpl. rewrite Hinput. simpl.
  rewrite Hhtml. simpl. rewrite Hprofile. simpl.
  fold count. fold tmp_report. fold tmp_profile.
  destruct (0 <? FeatureDriftDetection.n_drifted_features profile)%Z;
    simpl; apply (f_equal (pair (Ok tt))); apply world_eq; simpl;
    try reflexivity; repeat rewrite <- app_assoc; reflexivity.
Qed.

(** X16. A drift run whose lookups and computations succeed logs two
    files, the report and then the profile, whether or not any feature
    drifted, and it logs a warning, quoting the count and the URL of the
    run, exactly when the count of drifted features is above zero.  The
    reference data is the frame of the first artifact that the training
    run used, whatever else it used. *)
Theorem drift_completed_run evidently config w artifact run name rest training
    inference html profile :
  FeatureDriftDetection.w_api w (model_path config) = Ok artifact ->
  FeatureDriftDetection.logged_by artifact = Some run ->
  FeatureDriftDetection.used_artifacts run = name :: rest ->
  assoc (FeatureDriftDetection.w_frames w) name = Some training ->
  assoc (FeatureDriftDetection.w_frames w)
    (FeatureDriftDetection.model_input_name config ++ ":"
     ++ FeatureDriftDetection.model_input_version config)%string
  = Some inference ->
  FeatureDriftDetection.dashboard_calculate evidently training inference
  = Ok html ->
  FeatureDriftDetection.profile_calculate evidently training inference
  = Ok profile ->
  let n := FeatureDriftDetection.n_drifted_features profile in
  exists w',
    FeatureDriftDetection.main evidently config w = (Ok tt, w')
    /\ filter is_log_file (FeatureDriftDetection.w_trace w')
       = filter is_log_file (FeatureDriftDetection.w_trace w)
         ++ [FeatureDriftDetection.LogFile
               (FeatureDriftDetection.data_drift_report_file_name
                  (FeatureDriftDetection.w_mkdtemp w
                     (FeatureDriftDetection.w_tmp_count w)))
               (FeatureDriftDetection.report_type config)
               (FeatureDriftDetection.report_name config)
               (FeatureDriftDetection.report_description config);
             FeatureDriftDetection.LogFile
               (FeatureDriftDetection.data_drift_profile_file_name
                  (FeatureDriftDetection.w_mkdtemp w
                     (S (FeatureDriftDetection.w_tmp_count w))))
               (FeatureDriftDetection.profile_type config)
               (FeatureDriftDetection.profile_name config)
               (FeatureDriftDetection.profile_description config)]
    /\ filter is_warning (FeatureDriftDetection.w_trace w')
       = filter is_warning (FeatureDriftDetection.w_trace w)
         ++ (if (0 <? n)%Z
             then [FeatureDriftDetection.LoggerWarning
                     ("Data drift detected on " ++ string_of_Z n
                      ++ ". Check data drift report and profile in run:"
                      ++ FeatureDriftDetection.w_run_url w)%string]
             else []).
Proof.
  intros Hapi Hrun Hused Htrain Hinput Hhtml Hprofile n.
  eexists. split.
  - exact (drift_main_run _ _ _ _ _ _ _ _ _ _ _ Hapi Hrun Hused Htrain Hinput
             Hhtml Hprofile).
  - cbn [FeatureDriftDetection.w_trace]. unfold drift_trace. fold n.
    rewrite !filter_app.
    destruct (0 <? n)%Z; split; simpl; rewrite ?app_nil_r; reflexivity.
Qed.

(** X17. The two files of a drift run outlive its temporary
    directories: after a run whose lookups and computations succeed, and
    whose second temporary directory is not an ancestor of the first
    file, the report and the profile are still on disk although both
    directories have been removed with all they held; nothing is left
    under the second one. *)
Theorem drift_files_left_behind evidently config w artifact run name rest
    training inference html profile :
  FeatureDriftDetection.w_api w (model_path config) = Ok artifact ->
  FeatureDriftDetection.logged_by artifact = Some run ->
  FeatureDriftDetection.used_artifacts run = name :: rest ->
  assoc (FeatureDriftDetection.w_frames w) name = Some training ->
  assoc (FeatureDriftDetection.w_frames w)
    (FeatureDriftDetection.model_input_name config ++ ":"
     ++ FeatureDriftDetection.model_input_version config)%string
  = Some inference ->
  FeatureDriftDetection.dashboard_calculate evidently training inference
  = Ok html ->
  FeatureDriftDetection.profile_calculate evidently training inference
  = Ok profile ->
  let tmp_report :=
    FeatureDriftDetection.w_mkdtemp w (FeatureDriftDetection.w_tmp_count w) in
  let tmp_profile :=
    FeatureDriftDetection.w_mkdtemp w
      (S (FeatureDriftDetection.w_tmp_count w)) in
  is_inside tmp_profile
    (FeatureDriftDetection.data_drift_report_file_name tmp_report) = false ->
  let files :=
    FeatureDriftDetection.w_files
      (snd (FeatureDriftDetection.main evidently config w)) in
  In (FeatureDriftDetection.data_drift_report_file_name tmp_report, html) files
  /\ In (FeatureDriftDetection.data_drift_profile_file_name tmp_profile,
         FeatureDriftDetection.json profile) files
  /\ (forall f, In f files -> is_inside tmp_profile (fst f) = false).
Proof.
  intros Hapi Hrun Hused Htrain Hinput Hhtml Hprofile tmp_report tmp_profile
    Hsep files.
  unfold files.
  rewrite (drift_main_run _ _ _ _ _ _ _ _ _ _ _ Hapi Hrun Hused Htrain Hinput
             Hhtml Hprofile).
  cbn [snd FeatureDriftDetection.w_files].
  fold tmp_report. fold tmp_profile.
  split; [|split].
  - apply filter_In. split.
    + right. apply filter_In. split; [left; reflexivity|].
      cbn [fst].
      unfold FeatureDriftDetection.data_drift_report_file_name.
      rewrite sibling_not_inside; reflexivity.
    + cbn [fst]. rewrite Hsep. reflexivity.
  - apply filter_In. split; [left; reflexivity|].
    cbn [fst]. unfold FeatureDriftDetection.data_drift_profile_file_name.
    rewrite sibling_not_inside; reflexivity.
  - intros f Hf. apply filter_In in Hf. destruct Hf as [_ Hf].
    apply negb_true_iff in Hf. exact Hf.
Qed.

(** ** The drift properties on the examples *)

Lemma drift_model_version_missing_witness :
  FeatureDriftDetection.main example_evidently drift_config_v9
    (drift_world [])
  = (Raise (ValueError
       "Trained model version does not exist. From WANDB: no artifact mlops/model:v9"),
     traced (drift_world [])
       [FeatureDriftDetection.WandbInit "mlops" "drift_detection" "batch"])
  /\ FeatureDriftDetection.main example_evidently drift_config_private
       (drift_world [])
     = (Raise (ValueError
          "Trained model version does not exist. From WANDB: not logged in"),
        traced (drift_world [])
          [FeatureDriftDetection.WandbInit "mlops" "drift_detection" "batch"]).
Proof.
  split.
  - apply (drift_model_version_missing example_evidently drift_config_v9
             (drift_world [])
             (Exception "CommError" "no artifact mlops/model:v9")).
    reflexivity.
  - apply (drift_model_version_missing example_evidently drift_config_private
             (drift_world [])
             (Exception "AuthenticationError" "not logged in")).
    reflexivity.
Defined.

Lemma drift_training_run_without_inputs_witness :
  FeatureDriftDetection.main example_evidently drift_config (drift_world [])
  = (Raise (Exception "IndexError" "list index out of range"),
     traced (drift_world [])
       [FeatureDriftDetection.WandbInit "mlops" "drift_detection" "batch"]).
Proof.
  apply (drift_training_run_without_inputs example_evidently drift_config
           (drift_world [])
           {| FeatureDriftDetection.logged_by :=
                Some {| FeatureDriftDetection.used_artifacts := [] |} |}
           {| FeatureDriftDetection.used_artifacts := [] |});
    reflexivity.
Defined.

Lemma drift_completed_run_witness :
  exists w',
    FeatureDriftDetection.main example_evidently drift_config
      (drift_world ["train-validate:v3"; "other:v1"]) = (Ok tt, w')
    /\ filter is_log_file (FeatureDriftDetection.w_trace w')
       = [FeatureDriftDetection.LogFile "/tmp/tmp0data_drift_report.html"
            "report" "data-drift-report" "Data drift report";
          FeatureDriftDetection.LogFile "/tmp/tmp1data_drift_profile.json"
            "profile" "data-drift-profile" "Data drift profile"]
    /\ filter is_warning (FeatureDriftDetection.w_trace w')
       = [FeatureDriftDetection.LoggerWarning
            "Data drift detected on 2. Check data drift report and profile in run:https://wandb.ai/run/1"].
Proof.
  apply (drift_completed_run example_evidently drift_config
           (drift_world ["train-validate:v3"; "other:v1"])
           {| FeatureDriftDetection.logged_by :=
                Some {| FeatureDriftDetection.used_artifacts :=
                          ["train-validate:v3"; "other:v1"] |} |}
           {| FeatureDriftDetection.used_artifacts :=
                ["train-validate:v3"; "other:v1"] |}
           "train-validate:v3" ["other:v1"] example_frame (frame []) "<html/>"
           {| FeatureDriftDetection.json := "{}";
              FeatureDriftDetection.n_drifted_features := 2 |});
    reflexivity.
Defined.

Lemma drift_files_left_behind_witness :
  In ("/tmp/tmp0data_drift_report.html", "<html/>")
    (FeatureDriftDetection.w_files
       (snd (FeatureDriftDetection.main example_evidently drift_config
               (drift_world ["train-validate:v3"]))))
  /\ In ("/tmp/tmp1data_drift_profile.json", "{}")
       (FeatureDriftDetection.w_files
          (snd (FeatureDriftDetection.main example_evidently drift_config
                  (drift_world ["train-validate:v3"])))).
Proof.
  destruct (drift_files_left_behind example_evidently drift_config
              (drift_world ["train-validate:v3"])
              {| FeatureDriftDetection.logged_by :=
                   Some {| FeatureDriftDetection.used_artifacts :=
                             ["train-validate:v3"] |} |}
              {| FeatureDriftDetection.used_artifacts :=
                   ["train-validate:v3"] |}
              "train-validate:v3" [] example_frame (frame []) "<html/>"
              {| FeatureDriftDetection.json := "{}";
                 FeatureDriftDetection.n_drifted_features := 2 |}
              eq_refl eq_refl eq_refl eq_refl eq_refl eq_refl eq_refl eq_refl)
    as (Hreport & Hprofile & _).
  split; [exact Hreport | exact Hprofile].
Defined.
